(** * AI-Webshop: the cart, checkout and access-control handlers

    A shallow embedding of the Flask handlers of [app.py] and
    [admin_route.py], with the properties the specification states about
    them.

    Conventions of the embedding.
    - A handler is a function from the state it can touch (the Flask
      session, the SQLite database, the requests sent to the payment
      provider) to either a response with the new state, or the Python
      exception that escapes the handler.  An escaping exception aborts the
      request before [conn.commit()], so no database change survives it.
    - Python [float] is IEEE binary64: Rocq's primitive floats.  Python
      [int] is unbounded: [Z].  A [str] is a string of code points below
      256, which is enough for the ASCII-only patterns of the source.
    - A table is the list of its rows in rowid order (the order in which a
      scan without index visits them) with its AUTOINCREMENT counter.
      INTEGER columns are computed in [Z]: the 64-bit range of SQLite is
      checked where Python binds a parameter, not in SQL arithmetic.
    - [sum] adds its terms from left to right, starting from the integer 0. *)

From Stdlib Require Import ZArith NArith List String Ascii Bool Lia.
From Stdlib Require Import Floats.PrimFloat Floats.SpecFloat Floats.FloatOps.
Import ListNotations.

#[local] Open Scope Z_scope.
#[local] Open Scope string_scope.
#[local] Open Scope list_scope.

(** ** Exceptions and the monad of computations that may raise *)

Inductive exn : Type :=
| KeyError (key : string)
| ValueError
| OverflowError
| IntegrityError
| StripeError.

Inductive result (A : Type) : Type :=
| Ok (a : A)
| Raise (e : exn).

Arguments Ok {A} a.
Arguments Raise {A} e.

Definition bind {A B : Type} (c : result A) (k : A -> result B) : result B :=
  match c with
  | Ok a => k a
  | Raise e => Raise e
  end.

Notation "x <- c ;; k" := (bind c (fun x => k))
  (at level 61, c at next level, right associativity).
Notation "' pat <- c ;; k" := (bind c (fun x => match x with pat => k end))
  (at level 61, pat pattern, c at next level, right associativity).

(** ** The fragment of Python the handlers use *)

Module Py.

(** Numbers: [int] and [float], with the implicit conversion of an [int]
    operand when the other one is a [float]. *)
Inductive number : Type :=
| Int (z : Z)
| Float (f : float).

(** [float(z)]: round to nearest even; OverflowError beyond the range. *)
Definition float_of_int (z : Z) : result float :=
  match binary_normalize prec emax z 0 false with
  | S754_infinity _ => Raise OverflowError
  | sf => Ok (SF2Prim sf)
  end.

Definition to_float (x : number) : result float :=
  match x with
  | Int z => float_of_int z
  | Float f => Ok f
  end.

Definition add (x y : number) : result number :=
  match x, y with
  | Int a, Int b => Ok (Int (a + b))
  | _, _ => a <- to_float x ;; b <- to_float y ;; Ok (Float (a + b)%float)
  end.

Definition mul (x y : number) : result number :=
  match x, y with
  | Int a, Int b => Ok (Int (a * b))
  | _, _ => a <- to_float x ;; b <- to_float y ;; Ok (Float (a * b)%float)
  end.

(** [int(x)]: truncation towards zero; an infinity raises OverflowError
    and a NaN raises ValueError. *)
Definition int (x : number) : result Z :=
  match x with
  | Int z => Ok z
  | Float f =>
      match Prim2SF f with
      | S754_zero _ => Ok 0
      | S754_finite s m e =>
          let a := match e with
                   | Z0 => Zpos m
                   | Zpos p => Z.shiftl (Zpos m) (Zpos p)
                   | Zneg p => Z.shiftr (Zpos m) (Zpos p)
                   end in
          Ok (if s then - a else a)
      | S754_infinity _ => Raise OverflowError
      | S754_nan => Raise ValueError
      end
  end.

(** [sum(term(x) for x in xs)]: each term is evaluated, then added to the
    running result, which starts at the integer 0. *)
Fixpoint sum_from {A : Type} (term : A -> result number) (acc : number)
         (xs : list A) : result number :=
  match xs with
  | [] => Ok acc
  | x :: xs' => t <- term x ;; s <- add acc t ;; sum_from term s xs'
  end.

Definition sum {A : Type} (term : A -> result number) (xs : list A)
  : result number :=
  sum_from term (Int 0) xs.

(** Characters and [str] methods.  [uppercase] holds of the code points
    below 256 that [str.lower] maps to another one, 32 places further. *)
Definition between (lo hi : N) (c : ascii) : bool :=
  (lo <=? N_of_ascii c)%N && (N_of_ascii c <=? hi)%N.

Definition isspace (c : ascii) : bool :=
  between 9 13 c || between 28 32 c
  || (N_of_ascii c =? 133)%N || (N_of_ascii c =? 160)%N.

Definition uppercase (c : ascii) : bool :=
  between 65 90 c || (between 192 222 c && negb (N_of_ascii c =? 215)%N).

Definition lower_char (c : ascii) : ascii :=
  if uppercase c then ascii_of_N (N_of_ascii c + 32) else c.

Fixpoint lower (s : string) : string :=
  match s with
  | EmptyString => EmptyString
  | String c s' => String (lower_char c) (lower s')
  end.

Fixpoint lstrip (s : string) : string :=
  match s with
  | EmptyString => EmptyString
  | String c s' => if isspace c then lstrip s' else s
  end.

Fixpoint rstrip (s : string) : string :=
  match s with
  | EmptyString => EmptyString
  | String c s' =>
      match rstrip s' with
      | EmptyString => if isspace c then EmptyString else String c EmptyString
      | t => String c t
      end
  end.

Definition strip (s : string) : string := rstrip (lstrip s).

(** [re.search(r"[...]", s)] for a character class: some character of
    [s] belongs to the class. *)
Fixpoint search (class : ascii -> bool) (s : string) : bool :=
  match s with
  | EmptyString => false
  | String c s' => class c || search class s'
  end.

Definition len (s : string) : Z := Z.of_nat (String.length s).

End Py.

(** ** Flask: session, flashed messages, responses *)

(** A cart entry is the dict [{"name": .., "price": .., "quantity": ..}];
    [add_to_cart] itself allows for entries without the "quantity" key. *)
Record item : Type := {
  name : string;
  price : float;
  quantity : option Z
}.

(** [item["quantity"]] *)
Definition get_quantity (i : item) : result Z :=
  match quantity i with
  | Some q => Ok q
  | None => Raise (KeyError "quantity")
  end.

Definition set_quantity (q : Z) (i : item) : item :=
  {| name := name i; price := price i; quantity := Some q |}.

(** The session dict, with the three keys the handlers and [flash] use:
    "user", "cart" and "_flashes". *)
Record session : Type := {
  s_user : option string;
  s_cart : option (list item);
  s_flashes : list (string * string)
}.

(** [session.get("cart", [])] *)
Definition session_get_cart (s : session) : list item :=
  match s_cart s with
  | Some c => c
  | None => []
  end.

(** [session["cart"] = c] *)
Definition session_set_cart (c : list item) (s : session) : session :=
  {| s_user := s_user s; s_cart := Some c; s_flashes := s_flashes s |}.

(** [session.pop("cart", [])] *)
Definition session_pop_cart (s : session) : list item * session :=
  (session_get_cart s,
   {| s_user := s_user s; s_cart := None; s_flashes := s_flashes s |}).

(** [flash(message, category)] appends the pair (category, message). *)
Definition flash (message category : string) (s : session) : session :=
  {| s_user := s_user s; s_cart := s_cart s;
     s_flashes := s_flashes s ++ [(category, message)] |}.

(** [session["user"] = email] *)
Definition session_set_user (email : string) (s : session) : session :=
  {| s_user := Some email; s_cart := s_cart s; s_flashes := s_flashes s |}.

(** [session.pop("user", None)] *)
Definition session_pop_user (s : session) : session :=
  {| s_user := None; s_cart := s_cart s; s_flashes := s_flashes s |}.

Inductive location : Type :=
| url_for (endpoint : string)
| url_for_external (endpoint : string)
| url (address : string).

Inductive value : Type :=
| Items (l : list item)
| Number (x : Py.number)
| Rows (l : list (Z * string * option string)).

Inductive response : Type :=
| redirect (target : location) (code : Z)
| render_template (template : string) (context : list (string * value)).

(** [request.referrer or default]: an absent or empty header is falsy. *)
Definition referrer_or (referrer : option string) (default : location)
  : location :=
  match referrer with
  | Some (String c r) => url (String c r)
  | _ => default
  end.

Inductive http_method : Type := GET | POST.

(** The request of the two register handlers: its method and the two form
    fields they read. *)
Record request : Type := {
  method : http_method;
  form_email : string;
  form_password : string
}.

(** [for x in xs: body], threading the state the body updates. *)
Fixpoint for_each {A S : Type} (body : A -> S -> result S) (xs : list A)
         (s : S) : result S :=
  match xs with
  | [] => Ok s
  | x :: xs' => s' <- body x s ;; for_each body xs' s'
  end.

(** [[f(x) for x in xs]], left to right. *)
Fixpoint for_list {A B : Type} (f : A -> result B) (xs : list A)
  : result (list B) :=
  match xs with
  | [] => Ok []
  | x :: xs' => y <- f x ;; ys <- for_list f xs' ;; Ok (y :: ys)
  end.

(** ** SQLite: tables and parameter binding *)

Module Sqlite.

Record table (R : Type) : Type := {
  rows : list R;
  seq : Z
}.
Arguments rows {R} t.
Arguments seq {R} t.

(** The rowid an INTEGER PRIMARY KEY AUTOINCREMENT column receives: one
    more than the largest rowid the table ever held. *)
Definition next_rowid {R : Type} (rowid : R -> Z) (t : table R) : Z :=
  Z.max (seq t) (fold_right Z.max 0 (map rowid (rows t))) + 1.

Definition insert {R : Type} (rowid : R -> Z) (row : Z -> R) (t : table R)
  : Z * table R :=
  let id := next_rowid rowid t in
  (id, {| rows := rows t ++ [row id]; seq := id |}).

(** Binding a Python [int]: it must fit in 64 bits. *)
Definition bind_int (z : Z) : result Z :=
  if ((- 2 ^ 63 <=? z) && (z <=? 2 ^ 63 - 1))%Z then Ok z
  else Raise OverflowError.

(** Binding a Python [float]: a NaN is stored as NULL. *)
Definition bind_float (f : float) : option float :=
  if is_nan f then None else Some f.

(** A number bound into a REAL column. *)
Definition bind_real (x : Py.number) : result (option float) :=
  match x with
  | Py.Int z => z' <- bind_int z ;; f <- Py.float_of_int z' ;; Ok (Some f)
  | Py.Float f => Ok (bind_float f)
  end.

(** A number in a cell: a 64-bit INTEGER or a REAL.  A REAL cell never holds
    a NaN, SQLite stores NULL in its place; the difference of such a cell and
    a 64-bit integer is no NaN either, so the NULL that SQLite substitutes for
    a NaN result, which a NOT NULL column would refuse, does not arise. *)
Inductive numeric : Type :=
| Integer (z : Z)
| Real (f : float).

(** [(double)z] for a 64-bit integer, rounded to nearest even. *)
Definition real_of_int (z : Z) : float :=
  SF2Prim (binary_normalize prec emax z 0 false).

(** The operand of a floating-point operation. *)
Definition real_value (x : numeric) : float :=
  match x with
  | Integer z => real_of_int z
  | Real f => f
  end.

(** The integer a float denotes, when its value is one. *)
Definition exact_integer (f : float) : option Z :=
  match Prim2SF f with
  | S754_zero _ => Some 0
  | S754_finite s m e =>
      let z := if s then Zneg m else Zpos m in
      match e with
      | Z0 => Some z
      | Zpos p => Some (z * 2 ^ Zpos p)
      | Zneg p =>
          if (z mod 2 ^ Zpos p =? 0)%Z then Some (z / 2 ^ Zpos p) else None
      end
  | _ => None
  end.

(** INTEGER affinity of a column, applied to the value stored: a REAL that
    denotes an integer strictly between the smallest and the largest 64-bit
    integer becomes that INTEGER; any other REAL stays a REAL. *)
Definition integer_affinity (x : numeric) : numeric :=
  match x with
  | Integer z => Integer z
  | Real f =>
      match exact_integer f with
      | Some z =>
          if ((- 2 ^ 63 <? z) && (z <? 2 ^ 63 - 1))%Z then Integer z
          else Real f
      | None => Real f
      end
  end.

(** [x - ?] for an integer parameter: on two INTEGERs the 64-bit
    difference, or the floating-point one when that overflows; the
    floating-point difference as soon as [x] is a REAL. *)
Definition subtract (x : numeric) (q : Z) : numeric :=
  match x with
  | Integer z =>
      if ((- 2 ^ 63 <=? z - q) && (z - q <=? 2 ^ 63 - 1))%Z
      then Integer (z - q)
      else Real (real_of_int z - real_of_int q)%float
  | Real f => Real (f - real_of_int q)%float
  end.

End Sqlite.

(** The character class of the last pattern of [password_is_strong], the
    same in both files: the punctuation below and the double quote. *)
Definition symbols : list ascii :=
  list_ascii_of_string "!@#$%^&*(),.?:{}|<>" ++ ["034"%char].

(** ** app.py *)

Module App.
Import Sqlite.

(** *** The four tables of [init_db] *)

Record user_row : Type := {
  u_id : Z;
  u_email : string;
  u_password : string
}.

Record product_row : Type := {
  p_id : Z;
  p_name : string;
  p_description : option string;
  p_price : float;
  p_stock : numeric;
  p_image_url : option string;
  p_category : option string
}.

Record order_row : Type := {
  o_id : Z;
  o_user_email : string;
  o_total : float;
  o_created_at : string
}.

Record order_item_row : Type := {
  oi_id : Z;
  oi_order_id : Z;
  oi_product_id : option Z;
  oi_product_name : option string;
  oi_unit_price : option float;
  oi_quantity : option Z
}.

Record db : Type := {
  users : table user_row;
  products : table product_row;
  orders : table order_row;
  order_items : table order_item_row
}.

(** INSERT INTO users (email, password): email is UNIQUE, compared
    byte for byte. *)
Definition insert_user (email password : string) (d : db) : result db :=
  if existsb (fun r => u_email r =? email) (rows (users d))
  then Raise IntegrityError
  else
    let '(_, t) := insert u_id (fun id => {| u_id := id; u_email := email;
                                             u_password := password |})
                          (users d) in
    Ok {| users := t; products := products d; orders := orders d;
          order_items := order_items d |}.

(** INSERT INTO orders (user_email, total, created_at), all NOT NULL;
    returns [lastrowid]. *)
Definition insert_order (user_email : option string) (total : option float)
           (created_at : string) (d : db) : result (Z * db) :=
  match user_email, total with
  | Some u, Some t =>
      let '(id, tbl) := insert o_id (fun id => {| o_id := id; o_user_email := u;
                                                  o_total := t;
                                                  o_created_at := created_at |})
                               (orders d) in
      Ok (id, {| users := users d; products := products d; orders := tbl;
                 order_items := order_items d |})
  | _, _ => Raise IntegrityError
  end.

(** INSERT INTO order_items (order_id, product_id, product_name,
    unit_price, quantity) *)
Definition insert_order_item (order_id : Z) (product_id : option Z)
           (product_name : string) (unit_price : float) (qty : Z) (d : db)
  : result db :=
  q <- bind_int qty ;;
  let '(_, tbl) := insert oi_id
                     (fun id => {| oi_id := id; oi_order_id := order_id;
                                   oi_product_id := product_id;
                                   oi_product_name := Some product_name;
                                   oi_unit_price := bind_float unit_price;
                                   oi_quantity := Some q |})
                     (order_items d) in
  Ok {| users := users d; products := products d; orders := orders d;
        order_items := tbl |}.

(** SELECT password FROM users WHERE email = ?, then [fetchone()] *)
Definition select_password (email : string) (d : db) : option string :=
  option_map u_password (find (fun r => u_email r =? email) (rows (users d))).

(** SELECT id FROM products WHERE name = ?, then [fetchone()] *)
Definition select_product (product_name : string) (d : db)
  : option product_row :=
  find (fun r => p_name r =? product_name) (rows (products d)).

Definition decrement (qty id : Z) (r : product_row) : product_row :=
  if (p_id r =? id)%Z
  then {| p_id := p_id r; p_name := p_name r;
          p_description := p_description r; p_price := p_price r;
          p_stock := integer_affinity (subtract (p_stock r) qty);
          p_image_url := p_image_url r;
          p_category := p_category r |}
  else r.

(** UPDATE products SET stock = stock - ? WHERE id = ? *)
Definition update_stock (qty id : Z) (d : db) : result db :=
  q <- bind_int qty ;;
  Ok {| users := users d;
        products := {| rows := map (decrement q id) (rows (products d));
                       seq := seq (products d) |};
        orders := orders d; order_items := order_items d |}.

(** *** Handlers *)

Record product_data : Type := { pd_name : string }.

Record price_data : Type := {
  currency : string;
  pd_product_data : product_data;
  unit_amount : Z
}.

Record line_item : Type := {
  li_price_data : price_data;
  li_quantity : Z
}.

(** The keyword arguments of [stripe.checkout.Session.create]. *)
Record create_params : Type := {
  payment_method_types : list string;
  line_items : list line_item;
  mode : string;
  success_url : location;
  cancel_url : location;
  customer_email : option string
}.

Record checkout_session : Type := { cs_id : string; cs_url : string }.

(** What a handler reads and writes: the session, the database as
    committed, and the requests made to the payment provider so far. *)
Record world : Type := {
  sess : session;
  database : db;
  stripe_requests : list create_params
}.

Definition with_session (s : session) (w : world) : world :=
  {| sess := s; database := database w;
     stripe_requests := stripe_requests w |}.

Definition handler : Type := world -> result (response * world).

Definition password_is_strong (password : string) : bool :=
  (8 <=? Py.len password)%Z
  && Py.search (Py.between 65 90) password
  && Py.search (Py.between 97 122) password
  && Py.search (Py.between 48 57) password
  && Py.search (fun c => existsb (Ascii.eqb c) symbols) password.

Definition login_required (f : handler) : handler := fun w =>
  match s_user (sess w) with
  | None =>
      Ok (redirect (url_for "login") 302,
          with_session (flash "Please log in to access this page." "warning"
                              (sess w)) w)
  | Some _ => f w
  end.

Section Handlers.

(** The two outside services: werkzeug's password hashing (with the
    salt it draws) and the payment provider's session creation. *)
Variable generate_password_hash : string -> string.
Variable Session_create : create_params -> result checkout_session.

Definition register (req : request) : handler := fun w =>
  match method req with
  | POST =>
      let email := Py.lower (Py.strip (form_email req)) in
      let password := form_password req in
      if negb (password_is_strong password) then
        Ok (redirect (url_for "register") 302,
            with_session
              (flash "Password must be at least 8 characters long and include upper/lowercase letters, numbers, and symbols."
                     "danger" (sess w)) w)
      else
        let hashed_password := generate_password_hash password in
        match insert_user email hashed_password (database w) with
        | Ok d =>
            Ok (redirect (url_for "login") 302,
                {| sess := flash "Account created successfully!" "success"
                                 (sess w);
                   database := d;
                   stripe_requests := stripe_requests w |})
        | Raise IntegrityError =>
            Ok (redirect (url_for "register") 302,
                with_session (flash "Email already registered!" "danger"
                                    (sess w)) w)
        | Raise e => Raise e
        end
  | GET => Ok (render_template "register_page.html" [], w)
  end.

(** werkzeug's verification of a password against a stored digest. *)
Variable check_password_hash : string -> string -> bool.

Definition login (req : request) : handler := fun w =>
  match s_user (sess w) with
  | Some _ => Ok (redirect (url_for "main") 302, w)
  | None =>
      match method req with
      | POST =>
          let email := Py.lower (Py.strip (form_email req)) in
          let password := form_password req in
          let result := select_password email (database w) in
          if match result with
             | Some digest => check_password_hash digest password
             | None => false
             end
          then
            Ok (redirect (url_for "main") 302,
                with_session (flash "Logged in successfully!" "success"
                                    (session_set_user email (sess w))) w)
          else
            Ok (redirect (url_for "login") 302,
                with_session (flash "Invalid email or password!" "danger"
                                    (sess w)) w)
      | GET => Ok (render_template "login_page.html" [], w)
      end
  end.

Definition logout : handler := fun w =>
  Ok (redirect (url_for "main") 302,
      with_session (flash "Logged out successfully!" "success"
                          (session_pop_user (sess w))) w).

(** First loop of [add_to_cart]. *)
Definition default_quantity (i : item) : item :=
  match quantity i with
  | None => set_quantity 1 i
  | Some _ => i
  end.

(** Second loop of [add_to_cart]: [Some] of the updated cart when the
    loop leaves through [break], [None] when it runs to its [else]. *)
Fixpoint increment (product_name : string) (cart : list item)
  : result (option (list item)) :=
  match cart with
  | [] => Ok None
  | i :: rest =>
      if name i =? product_name then
        q <- get_quantity i ;; Ok (Some (set_quantity (q + 1) i :: rest))
      else
        r <- increment product_name rest ;; Ok (option_map (cons i) r)
  end.

Definition add_to_cart (product_name : string) (price : float)
           (referrer : option string) : handler :=
  login_required (fun w =>
    let cart := session_get_cart (sess w) in
    let cart := map default_quantity cart in
    found <- increment product_name cart ;;
    let cart :=
      match found with
      | Some cart' => cart'
      | None => cart ++ [{| name := product_name; price := price;
                            quantity := Some 1 |}]
      end in
    let s := session_set_cart cart (sess w) in
    let s := flash (product_name ++ " added to cart!") "success" s in
    Ok (redirect (referrer_or referrer (url_for "main")) 302,
        with_session s w)).

(** [item["price"] * item["quantity"]] *)
Definition line_total (i : item) : result Py.number :=
  q <- get_quantity i ;; Py.mul (Py.Float (price i)) (Py.Int q).

Definition cart : handler :=
  login_required (fun w =>
    let cart_items := session_get_cart (sess w) in
    total <- Py.sum line_total cart_items ;;
    Ok (render_template "cart.html"
          [("cart_items", Items cart_items); ("total", Number total)],
        w)).

Definition session_item (i : item) : result line_item :=
  cents <- Py.mul (Py.Float (price i)) (Py.Int 100) ;;
  amount <- Py.int cents ;;
  q <- get_quantity i ;;
  Ok {| li_price_data :=
          {| currency := "usd";
             pd_product_data := {| pd_name := name i |};
             unit_amount := amount |};
        li_quantity := q |}.

Definition checkout : handler :=
  login_required (fun w =>
    let cart_items := session_get_cart (sess w) in
    match cart_items with
    | [] =>
        Ok (redirect (url_for "cart") 302,
            with_session (flash "Your cart is empty!" "warning" (sess w)) w)
    | _ :: _ =>
        session_items <- for_list session_item cart_items ;;
        let params :=
          {| payment_method_types := ["card"];
             line_items := session_items;
             mode := "payment";
             success_url := url_for_external "success";
             cancel_url := url_for_external "cart";
             customer_email := s_user (sess w) |} in
        checkout_session <- Session_create params ;;
        Ok (redirect (url (cs_url checkout_session)) 303,
            {| sess := sess w; database := database w;
               stripe_requests := stripe_requests w ++ [params] |})
    end).

(** Body of the loop of [success] over the cart items. *)
Definition order_line (order_id : Z) (i : item) (d : db) : result db :=
  let p := select_product (name i) d in
  let product_id := option_map p_id p in
  let unit_price := price i in
  q <- get_quantity i ;;
  d <- insert_order_item order_id product_id (name i) unit_price q d ;;
  match p with
  | Some r => q <- get_quantity i ;; update_stock q (p_id r) d
  | None => Ok d
  end.

(** [utcnow] is what [datetime.utcnow().isoformat()] returns during
    this request. *)
Definition success (utcnow : string) : handler :=
  login_required (fun w =>
    let '(cart_items, s) := session_pop_cart (sess w) in
    match cart_items with
    | [] => Ok (render_template "success.html" [], with_session s w)
    | _ :: _ =>
        total <- Py.sum line_total cart_items ;;
        let now := utcnow in
        total' <- bind_real total ;;
        '(order_id, d) <- insert_order (s_user s) total' now (database w) ;;
        d <- for_each (order_line order_id) cart_items d ;;
        Ok (render_template "success.html" [],
            {| sess := s; database := d;
               stripe_requests := stripe_requests w |})
    end).

Definition cancel : handler :=
  login_required (fun w =>
    Ok (redirect (url_for "cart") 302,
        with_session (flash "Payment canceled." "warning" (sess w)) w)).

End Handlers.

End App.

(** ** admin_route.py *)

Module AdminRoute.
Import Sqlite.

(** The users table of this file's [init_db], with its role column
    (TEXT DEFAULT 'user', nullable). *)
Record user_row : Type := {
  u_id : Z;
  u_email : string;
  u_password : string;
  u_role : option string
}.

Record world : Type := {
  sess : session;
  users : table user_row
}.

Definition with_session (s : session) (w : world) : world :=
  {| sess := s; users := users w |}.

Definition handler : Type := world -> result (response * world).

(** INSERT INTO users (email, password, role); email is UNIQUE. *)
Definition insert_user (email password : string) (role : option string)
           (t : table user_row) : result (table user_row) :=
  if existsb (fun r => u_email r =? email) (rows t)
  then Raise IntegrityError
  else Ok (snd (insert u_id (fun id => {| u_id := id; u_email := email;
                                          u_password := password;
                                          u_role := role |}) t)).

Definition password_is_strong (password : string) : bool :=
  (8 <=? Py.len password)%Z
  && Py.search (Py.between 65 90) password
  && Py.search (Py.between 97 122) password
  && Py.search (Py.between 48 57) password
  && Py.search (fun c => existsb (Ascii.eqb c) symbols) password.

Definition login_required (f : handler) : handler := fun w =>
  match s_user (sess w) with
  | None =>
      Ok (redirect (url_for "login") 302,
          with_session (flash "Please log in first." "warning" (sess w)) w)
  | Some _ => f w
  end.

(** SELECT role FROM users WHERE email = ?, then [fetchone()]: the
    one-column row of the first match. *)
Definition select_role (email : string) (t : table user_row)
  : option (option string) :=
  option_map u_role (find (fun r => u_email r =? email) (rows t)).

(** SELECT password, role FROM users WHERE email = ?, then [fetchone()] *)
Definition select_login (email : string) (t : table user_row)
  : option (string * option string) :=
  option_map (fun r => (u_password r, u_role r))
             (find (fun r => u_email r =? email) (rows t)).

(** [str(role)] inside an f-string: NULL prints as None. *)
Definition format_role (role : option string) : string :=
  match role with
  | Some r => r
  | None => "None"
  end.

(** [role[0] != "admin"] *)
Definition not_admin (role0 : option string) : bool :=
  match role0 with
  | Some r => negb (r =? "admin")
  | None => true
  end.

Definition admin_required (f : handler) : handler := fun w =>
  match s_user (sess w) with
  | None =>
      Ok (redirect (url_for "login") 302,
          with_session (flash "You must log in." "danger" (sess w)) w)
  | Some email =>
      let role := select_role email (users w) in
      if match role with
         | None => true
         | Some role0 => not_admin role0
         end
      then
        Ok (redirect (url_for "main") 302,
            with_session (flash "Access denied. Admins only." "danger"
                                (sess w)) w)
      else f w
  end.

Section Handlers.

Variable generate_password_hash : string -> string.

Definition init_db (t : table user_row) : table user_row :=
  match find (fun r => u_email r =? "admin@shop.com") (rows t) with
  | Some _ => t
  | None =>
      snd (insert u_id
             (fun id => {| u_id := id; u_email := "admin@shop.com";
                           u_password := generate_password_hash "Admin123!";
                           u_role := Some "admin" |}) t)
  end.

Definition register (req : request) : handler := fun w =>
  match method req with
  | POST =>
      let email := form_email req in
      let password := form_password req in
      if negb (password_is_strong password) then
        Ok (redirect (url_for "register") 302,
            with_session
              (flash "Weak password. Use uppercase, lowercase, digits & symbols."
                     "danger" (sess w)) w)
      else
        let hashed := generate_password_hash password in
        match insert_user email hashed (Some "user") (users w) with
        | Ok t =>
            Ok (redirect (url_for "login") 302,
                {| sess := flash "Account created!" "success" (sess w);
                   users := t |})
        | Raise IntegrityError =>
            Ok (redirect (url_for "register") 302,
                with_session (flash "Email already exists." "danger"
                                    (sess w)) w)
        | Raise e => Raise e
        end
  | GET => Ok (render_template "register_page.html" [], w)
  end.

Variable check_password_hash : string -> string -> bool.

Definition login (req : request) : handler := fun w =>
  match s_user (sess w) with
  | Some _ => Ok (redirect (url_for "main") 302, w)
  | None =>
      match method req with
      | POST =>
          let email := form_email req in
          let password := form_password req in
          let user := select_login email (users w) in
          let invalid :=
            Ok (redirect (url_for "login") 302,
                with_session (flash "Invalid email or password." "danger"
                                    (sess w)) w) in
          match user with
          | Some (digest, role) =>
              if check_password_hash digest password then
                Ok (redirect (url_for "main") 302,
                    with_session
                      (flash ("Logged in as " ++ email ++ " ("
                              ++ format_role role ++ ")") "success"
                             (session_set_user email (sess w))) w)
              else invalid
          | None => invalid
          end
      | GET => Ok (render_template "login_page.html" [], w)
      end
  end.

Definition logout : handler := fun w =>
  Ok (redirect (url_for "main") 302,
      with_session (flash "Logged out." "success"
                          (session_pop_user (sess w))) w).

End Handlers.

Definition admin_dashboard : handler :=
  admin_required (fun w =>
    Ok (render_template "admin/admin_dashboard.html" [], w)).

Definition admin_products : handler :=
  admin_required (fun w => Ok (render_template "admin/products.html" [], w)).

Definition admin_orders : handler :=
  admin_required (fun w => Ok (render_template "admin/orders.html" [], w)).

Definition admin_users : handler :=
  admin_required (fun w =>
    let users := map (fun r => (u_id r, u_email r, u_role r))
                     (rows (users w)) in
    Ok (render_template "admin/users.html" [("users", Rows users)], w)).

End AdminRoute.

(** ** Vocabulary of the statements *)

Import Sqlite.

(** The quantity of a cart entry as [add_to_cart] reads it: an entry without
    the key counts for one unit. *)
Definition qty (i : item) : Z :=
  match quantity i with
  | Some q => q
  | None => 1
  end.

Definition named (n : string) (i : item) : bool := name i =? n.

(** The response of a handler run, without the state. *)
Definition response_of {W : Type} (x : result (response * W))
  : result response :=
  '(r, _) <- x ;; Ok r.



(** The line item [checkout] builds for a cart entry. *)
Definition line_of (i : item) (li : App.line_item) : Prop :=
  App.currency (App.li_price_data li) = "usd"
  /\ App.pd_name (App.pd_product_data (App.li_price_data li)) = name i
  /\ Py.int (Py.Float (price i * 100)%float)
     = Ok (App.unit_amount (App.li_price_data li))
  /\ quantity i = Some (App.li_quantity li).

(** The request [checkout] sends for the line items [items]. *)
Definition checkout_params (s : session) (items : list App.line_item)
  : App.create_params :=
  {| App.payment_method_types := ["card"];
     App.line_items := items;
     App.mode := "payment";
     App.success_url := url_for_external "success";
     App.cancel_url := url_for_external "cart";
     App.customer_email := s_user s |}.

(** The cart entry [i] resolves, by name, to the product of id [id]. *)
Definition resolves (d : App.db) (id : Z) (i : item) : bool :=
  match App.select_product (name i) d with
  | Some r => (App.p_id r =? id)%Z
  | None => false
  end.

(** Units of the product [id] in the cart [c]. *)
Fixpoint purchased (d : App.db) (id : Z) (c : list item) : Z :=
  match c with
  | [] => 0
  | i :: rest => (if resolves d id i then qty i else 0) + purchased d id rest
  end.

(** The stock of the product [id] after the entries of the cart [c] that
    resolve to it were subtracted, one UPDATE each, in cart order. *)
Fixpoint stock_after (d : App.db) (id : Z) (c : list item) (s : numeric)
  : numeric :=
  match c with
  | [] => s
  | i :: rest =>
      stock_after d id rest
                  (if resolves d id i
                   then integer_affinity (subtract s (qty i))
                   else s)
  end.

(** A product row after the cart [c] was confirmed. *)
Definition sold (d : App.db) (c : list item) (r : App.product_row)
  : App.product_row :=
  {| App.p_id := App.p_id r; App.p_name := App.p_name r;
     App.p_description := App.p_description r; App.p_price := App.p_price r;
     App.p_stock := stock_after d (App.p_id r) c (App.p_stock r);
     App.p_image_url := App.p_image_url r;
     App.p_category := App.p_category r |}.



(** Some row of the users table of app.py holds this email. *)
Definition registered (email : string) (d : App.db) : bool :=
  existsb (fun r => App.u_email r =? email) (rows (App.users d)).

(** The session once [success] popped the cart. *)
Definition popped (s : session) : session := snd (session_pop_cart s).

(** ** Sample states *)

Definition widget (q : Z) : item :=
  {| name := "Widget"; price := 10%float; quantity := Some q |}.

Definition gadget (q : Z) : item :=
  {| name := "Gadget"; price := 5%float; quantity := Some q |}.

Definition empty_table {R : Type} : table R := {| rows := []; seq := 0 |}.

(** A catalogue with one Widget left. *)
Definition shop : App.db :=
  {| App.users := empty_table;
     App.products :=
       {| rows := [{| App.p_id := 1; App.p_name := "Widget";
                      App.p_description := None; App.p_price := 10%float;
                      App.p_stock := Integer 1; App.p_image_url := None;
                      App.p_category := None |}];
          seq := 1 |};
     App.orders := empty_table;
     App.order_items := empty_table |}.

Definition logged_in (c : option (list item)) : session :=
  {| s_user := Some "ann@shop.com"; s_cart := c; s_flashes := [] |}.

Definition visit (c : option (list item)) : App.world :=
  {| App.sess := logged_in c; App.database := shop;
     App.stripe_requests := [] |}.

(** The state after the confirmation of a visit whose cart holds two
    Widgets and one Gadget. *)
Definition confirmed : App.world :=
  match App.success "2026-11-04T10:00:00"
                    (visit (Some [widget 2; gadget 1])) with
  | Ok (_, w) => w
  | Raise _ => visit None
  end.

(** A provider that always answers with the same session. *)
Definition provider (_ : App.create_params) : result App.checkout_session :=
  Ok {| App.cs_id := "cs_test_1"; App.cs_url := "https://pay.example/cs_test_1" |}.

Definition digest (password : string) : string := "pbkdf2:" ++ password.

Definition post (email password : string) : request :=
  {| method := POST; form_email := email; form_password := password |}.

(** The answer of the admin gate when it turns a logged-in user away. *)
Definition denied (w : AdminRoute.world) : result (response * AdminRoute.world) :=
  Ok (redirect (url_for "main") 302,
      AdminRoute.with_session
        (flash "Access denied. Admins only." "danger" (AdminRoute.sess w)) w).

(** The seeded administrator at work, and the same session once the role
    was taken away in the users table. *)
Definition admin_visit : AdminRoute.world :=
  {| AdminRoute.sess := {| s_user := Some "admin@shop.com"; s_cart := None;
                           s_flashes := [] |};
     AdminRoute.users := AdminRoute.init_db digest empty_table |}.


Definition nobody : AdminRoute.world :=
  {| AdminRoute.sess := {| s_user := None; s_cart := None; s_flashes := [] |};
     AdminRoute.users := empty_table |}.

(** The state [add_to_cart] leaves when the cart becomes [c]. *)
Definition added (product_name : string) (c : list item) (w : App.world)
  : App.world :=
  App.with_session
    (flash (product_name ++ " added to cart!") "success"
           (session_set_cart c (App.sess w))) w.

Definition new_entry (product_name : string) (price : float) : item :=
  {| name := product_name; price := price; quantity := Some 1 |}.

(** ** Vocabulary for the rest of the handlers *)

(** Units in a cart, an entry without quantity counting for one. *)
Definition units (c : list item) : Z :=
  fold_right (fun i n => qty i + n) 0 c.

(** The quantity of the entry is present and fits a 64-bit integer. *)
Definition fits (i : item) : Prop :=
  exists q, quantity i = Some q /\ - 2 ^ 63 <= q <= 2 ^ 63 - 1.

(** The email as [register] and [login] of app.py read it. *)
Definition normalize (email : string) : string := Py.lower (Py.strip email).

Definition emails (d : App.db) : list string :=
  map App.u_email (rows (App.users d)).

(** The answer of [login_required] of app.py to a session without user. *)
Definition to_login (w : App.world) : result (response * App.world) :=
  Ok (redirect (url_for "login") 302,
      App.with_session (flash "Please log in to access this page." "warning"
                              (App.sess w)) w).

(** The order item [success] writes for a cart entry, apart from its id. *)
Definition snapshot (d : App.db) (order_id : Z) (i : item)
           (r : App.order_item_row) : Prop :=
  App.oi_order_id r = order_id
  /\ App.oi_product_id r
     = option_map App.p_id (App.select_product (name i) d)
  /\ App.oi_product_name r = Some (name i)
  /\ App.oi_unit_price r = bind_float (price i)
  /\ App.oi_quantity r = quantity i.

(** A digest check that goes with [digest]. *)
Definition verify (stored password : string) : bool :=
  stored =? digest password.

(** The float [f] has exactly the integer value [a]: sign, mantissa and
    exponent of [f] give [a] with nothing after the point. *)
Definition is_integer (f : float) (a : Z) : Prop :=
  match Prim2SF f with
  | S754_zero _ => a = 0
  | S754_finite s m e =>
      let z := if s then Zneg m else Zpos m in
      if (0 <=? e)%Z then a = z * 2 ^ e else z = a * 2 ^ (- e)
  | _ => False
  end.

(** The line item for a cart entry: its name, its quantity, and its price
    in minor currency units whenever the price times 100 is a whole number
    of them. *)
Definition converted (i : item) (li : App.line_item) : Prop :=
  App.currency (App.li_price_data li) = "usd"
  /\ App.pd_name (App.pd_product_data (App.li_price_data li)) = name i
  /\ quantity i = Some (App.li_quantity li)
  /\ forall a, is_integer (price i * 100)%float a ->
               App.unit_amount (App.li_price_data li) = a.

(** The operations under /admin, each with the page it renders. *)
Definition admin_pages
  : list (AdminRoute.handler * (AdminRoute.world -> response)) :=
  [(AdminRoute.admin_dashboard,
    fun _ => render_template "admin/admin_dashboard.html" []);
   (AdminRoute.admin_products,
    fun _ => render_template "admin/products.html" []);
   (AdminRoute.admin_orders,
    fun _ => render_template "admin/orders.html" []);
   (AdminRoute.admin_users,
    fun w => render_template
               "admin/users.html"
               [("users",
                 Rows (map (fun r => (AdminRoute.u_id r, AdminRoute.u_email r,
                                      AdminRoute.u_role r))
                           (rows (AdminRoute.users w))))])].

(** The answer of the admin gate to a session without user. *)
Definition must_log_in (w : AdminRoute.world)
  : result (response * AdminRoute.world) :=
  Ok (redirect (url_for "login") 302,
      AdminRoute.with_session
        (flash "You must log in." "danger" (AdminRoute.sess w)) w).

(** * Properties *)

(** ** Reasoning about the monad *)

Lemma bind_ok {A B : Type} (c : result A) (k : A -> result B) (b : B) :
  (x <- c ;; k x) = Ok b -> exists a, c = Ok a /\ k a = Ok b.
Proof. destruct c as [a|e]; simpl; [eauto | discriminate]. Qed.

Ltac bind_inv H :=
  let a := fresh "a" in
  let Ha := fresh "Ha" in
  apply bind_ok in H; destruct H as (a & Ha & H).

Lemma default_quantity_name i : name (App.default_quantity i) = name i.
Proof. unfold App.default_quantity. destruct (quantity i); reflexivity. Qed.

Lemma default_quantity_price i : price (App.default_quantity i) = price i.
Proof. unfold App.default_quantity. destruct (quantity i); reflexivity. Qed.

Lemma default_quantity_qty i :
  quantity (App.default_quantity i) = Some (qty i).
Proof.
  unfold App.default_quantity, qty.
  destruct (quantity i) eqn:E; [exact E | reflexivity].
Qed.

Lemma default_quantity_id i :
  quantity i <> None -> App.default_quantity i = i.
Proof. unfold App.default_quantity. destruct (quantity i); congruence. Qed.

(** The first loop changes nothing in a cart whose entries all carry a
    quantity. *)
Lemma map_default_quantity_id (c : list item) :
  Forall (fun i => quantity i <> None) c -> map App.default_quantity c = c.
Proof.
  induction 1 as [|i c Hi _ IH]; simpl; [reflexivity|].
  now rewrite IH, default_quantity_id.
Qed.

Lemma increment_absent n c :
  Forall (fun j => named n j = false) c ->
  App.increment n (map App.default_quantity c) = Ok None.
Proof.
  induction 1 as [|j c Hj _ IH]; simpl; [reflexivity|].
  rewrite default_quantity_name. unfold named in Hj. rewrite Hj, IH.
  reflexivity.
Qed.

Lemma increment_found n l1 i l2 :
  Forall (fun j => named n j = false) l1 -> named n i = true ->
  App.increment n (map App.default_quantity (l1 ++ i :: l2))
  = Ok (Some (map App.default_quantity l1
              ++ set_quantity (qty i + 1) i :: map App.default_quantity l2)).
Proof.
  intros H Hi. induction H as [|j l1 Hj _ IH]; simpl.
  - rewrite default_quantity_name. unfold named in Hi. rewrite Hi.
    unfold get_quantity. rewrite default_quantity_qty. simpl.
    unfold set_quantity.
    rewrite default_quantity_name, default_quantity_price. reflexivity.
  - rewrite default_quantity_name. unfold named in Hj. rewrite Hj, IH.
    reflexivity.
Qed.

Lemma add_to_cart_run n p ref w u c' :
  s_user (App.sess w) = Some u ->
  App.increment n (map App.default_quantity (session_get_cart (App.sess w)))
  = Ok c' ->
  App.add_to_cart n p ref w
  = Ok (redirect (referrer_or ref (url_for "main")) 302,
        added n (match c' with
                 | Some c => c
                 | None => map App.default_quantity
                               (session_get_cart (App.sess w))
                           ++ [new_entry n p]
                 end) w).
Proof.
  intros Hu Hc. unfold App.add_to_cart, App.login_required.
  rewrite Hu, Hc. reflexivity.
Qed.

Lemma added_cart n c w : session_get_cart (App.sess (added n c w)) = c.
Proof. reflexivity. Qed.

Lemma logged_in_some (s : session) :
  s_user s <> None -> exists u, s_user s = Some u.
Proof. destruct (s_user s) as [u|]; [eauto | congruence]. Qed.

Lemma cart_run w u total :
  s_user (App.sess w) = Some u ->
  Py.sum App.line_total (session_get_cart (App.sess w)) = Ok total ->
  App.cart w
  = Ok (render_template "cart.html"
          [("cart_items", Items (session_get_cart (App.sess w)));
           ("total", Number total)], w).
Proof.
  intros Hu Ht. unfold App.cart, App.login_required. rewrite Hu, Ht.
  reflexivity.
Qed.

(** C5: [add_to_cart] adds one unit to the first entry of that name when
    there is one (an entry without quantity counting for one unit, as the
    handler's first loop makes it), and appends a new entry with quantity 1
    otherwise; adding "Widget" at 10.00 twice to an empty cart leaves the
    single entry Widget, 10.00, quantity 2, which the cart page totals to
    20.00. *)
Theorem add_to_cart_increments_or_appends
        (n : string) (p : float) (ref : option string) (w : App.world) :
  s_user (App.sess w) <> None ->
  (forall l1 i l2,
      session_get_cart (App.sess w) = l1 ++ i :: l2 ->
      Forall (fun j => named n j = false) l1 -> named n i = true ->
      App.add_to_cart n p ref w
      = Ok (redirect (referrer_or ref (url_for "main")) 302,
            added n (map App.default_quantity l1
                     ++ set_quantity (qty i + 1) i
                     :: map App.default_quantity l2) w))
  /\ (Forall (fun j => named n j = false) (session_get_cart (App.sess w)) ->
      App.add_to_cart n p ref w
      = Ok (redirect (referrer_or ref (url_for "main")) 302,
            added n (map App.default_quantity (session_get_cart (App.sess w))
                     ++ [new_entry n p]) w))
  /\ (session_get_cart (App.sess w) = [] ->
      exists r w1 w2,
        App.add_to_cart "Widget" 10%float ref w = Ok (r, w1)
        /\ App.add_to_cart "Widget" 10%float ref w1 = Ok (r, w2)
        /\ s_cart (App.sess w2) = Some [widget 2]
        /\ response_of (App.cart w2)
           = Ok (render_template "cart.html"
                   [("cart_items", Items [widget 2]);
                    ("total", Number (Py.Float 20%float))])).
Proof.
  intros Hu. destruct (logged_in_some _ Hu) as [u Eu].
  split; [|split].
  - intros l1 i l2 Hc Hl1 Hi.
    apply (add_to_cart_run n p ref w u (Some _) Eu).
    rewrite Hc. now apply increment_found.
  - intros Hc.
    apply (add_to_cart_run n p ref w u None Eu).
    now apply increment_absent.
  - intros Hc. do 3 eexists. split; [|split; [|split]].
    + apply (add_to_cart_run _ _ ref w u None Eu). rewrite Hc. reflexivity.
    + eapply (add_to_cart_run _ _ ref _ u (Some _)).
      * exact Eu.
      * change (session_get_cart (App.sess (added ?n ?c ?w0))) with c.
        rewrite Hc. reflexivity.
    + reflexivity.
    + unfold response_of.
      rewrite (cart_run _ u (Py.Float 20%float)); [reflexivity | exact Eu |].
      reflexivity.
Qed.

Lemma add_to_cart_increments_or_appends_witness :
  App.add_to_cart "Widget" 10%float None (visit (Some [gadget 1; widget 2]))
  = Ok (redirect (url_for "main") 302,
        added "Widget" [gadget 1; widget 3]
              (visit (Some [gadget 1; widget 2]))).
Proof.
  refine (proj1 (add_to_cart_increments_or_appends
                   "Widget" 10%float None
                   (visit (Some [gadget 1; widget 2])) _)
                [gadget 1] (widget 2) [] _ _ _).
  - discriminate.
  - reflexivity.
  - repeat constructor.
  - reflexivity.
Defined.

(** C9: entries are merged by name alone.  When the first entry named [n]
    is stored at price [P], adding [n] at any price [P'] adds one unit to
    that entry and keeps [P]: the resulting state does not depend on [P']. *)
Theorem add_to_cart_keeps_stored_price
        (n : string) (P P' : float) (ref : option string) (w : App.world)
        (l1 : list item) (i : item) (l2 : list item) :
  s_user (App.sess w) <> None ->
  session_get_cart (App.sess w) = l1 ++ i :: l2 ->
  Forall (fun j => named n j = false) l1 ->
  name i = n -> price i = P ->
  exists r w',
    App.add_to_cart n P' ref w = Ok (r, w')
    /\ session_get_cart (App.sess w')
       = map App.default_quantity l1
         ++ {| name := n; price := P; quantity := Some (qty i + 1) |}
         :: map App.default_quantity l2
    /\ App.add_to_cart n P ref w = Ok (r, w').
Proof.
  intros Hu Hc Hl1 Hn HP. destruct (logged_in_some _ Hu) as [u Eu].
  assert (Hi : named n i = true) by (unfold named; rewrite Hn; apply String.eqb_refl).
  assert (E : App.increment n (map App.default_quantity
                                   (session_get_cart (App.sess w)))
              = Ok (Some (map App.default_quantity l1
                          ++ set_quantity (qty i + 1) i
                          :: map App.default_quantity l2)))
    by (rewrite Hc; now apply increment_found).
  do 2 eexists. split; [|split].
  - apply (add_to_cart_run n P' ref w u (Some _) Eu E).
  - rewrite added_cart. unfold set_quantity. rewrite Hn, HP. reflexivity.
  - apply (add_to_cart_run n P ref w u (Some _) Eu E).
Qed.

Lemma add_to_cart_keeps_stored_price_witness :
  exists r w',
    App.add_to_cart "Widget" 99%float None (visit (Some [gadget 1; widget 2]))
    = Ok (r, w')
    /\ session_get_cart (App.sess w') = [gadget 1; widget 3]
    /\ App.add_to_cart "Widget" 10%float None
                       (visit (Some [gadget 1; widget 2])) = Ok (r, w').
Proof.
  refine (add_to_cart_keeps_stored_price
            "Widget" 10%float 99%float None
            (visit (Some [gadget 1; widget 2]))
            [gadget 1] (widget 2) [] _ _ _ _ _).
  - discriminate.
  - reflexivity.
  - repeat constructor.
  - reflexivity.
  - reflexivity.
Defined.

(** ** Tables *)

Lemma fold_max_app (l : list Z) (x : Z) :
  fold_right Z.max 0 (l ++ [x]) = Z.max (fold_right Z.max 0 l) (Z.max x 0).
Proof.
  induction l as [|y l IH]; simpl; [lia|]. rewrite IH. lia.
Qed.

Lemma fold_max_nonneg (l : list Z) : 0 <= fold_right Z.max 0 l.
Proof. induction l as [|y l IH]; simpl; lia. Qed.

Lemma next_rowid_insert {R : Type} (rowid : R -> Z) (row : Z -> R)
      (t : table R) :
  (forall id, rowid (row id) = id) ->
  next_rowid rowid (snd (insert rowid row t)) = next_rowid rowid t + 1.
Proof.
  intros Hrow. unfold insert. cbn [snd]. unfold next_rowid. cbn [rows seq].
  rewrite map_app. cbn [map]. rewrite fold_max_app, Hrow.
  pose proof (fold_max_nonneg (map rowid (rows t))).
  generalize dependent (fold_right Z.max 0 (map rowid (rows t))).
  intros; lia.
Qed.

Lemma bind_int_ok (q q' : Z) : bind_int q = Ok q' -> q' = q.
Proof.
  unfold bind_int. destruct (_ && _); [congruence | discriminate].
Qed.

Lemma bind_int_range (q : Z) :
  - 2 ^ 63 <= q <= 2 ^ 63 - 1 -> bind_int q = Ok q.
Proof.
  intros H. unfold bind_int.
  destruct (- 2 ^ 63 <=? q)%Z eqn:E1; [|lia].
  destruct (q <=? 2 ^ 63 - 1)%Z eqn:E2; [reflexivity | lia].
Qed.

(** ** One pass of the loop of [success] *)

(** The row [order_line] inserts for the entry [i]. *)
Lemma order_line_ok (oid : Z) (i : item) (d d' : App.db) :
  App.order_line oid i d = Ok d' ->
  exists q,
    quantity i = Some q
    /\ App.users d' = App.users d
    /\ App.orders d' = App.orders d
    /\ App.order_items d'
       = snd (insert App.oi_id
                (fun id => {| App.oi_id := id; App.oi_order_id := oid;
                              App.oi_product_id :=
                                option_map App.p_id
                                           (App.select_product (name i) d);
                              App.oi_product_name := Some (name i);
                              App.oi_unit_price := bind_float (price i);
                              App.oi_quantity := Some q |})
                (App.order_items d))
    /\ rows (App.products d')
       = map (match App.select_product (name i) d with
              | Some r => App.decrement q (App.p_id r)
              | None => fun r => r
              end) (rows (App.products d)).
Proof.
  unfold App.order_line, get_quantity. intros H.
  destruct (quantity i) as [q|] eqn:Eq; [|discriminate].
  exists q. simpl in H. unfold App.insert_order_item in H.
  destruct (bind_int q) as [q'|] eqn:Eb; [|discriminate].
  apply bind_int_ok in Eb as Hq. subst q'. simpl in H.
  destruct (App.select_product (name i) d) as [r|] eqn:Er.
  - unfold App.update_stock in H. rewrite Eb in H. simpl in H.
    injection H as <-. simpl. repeat split; reflexivity.
  - injection H as <-. simpl. rewrite map_id. repeat split; reflexivity.
Qed.

Lemma order_line_total (oid : Z) (i : item) (d : App.db) (q : Z) :
  quantity i = Some q -> - 2 ^ 63 <= q <= 2 ^ 63 - 1 ->
  exists d', App.order_line oid i d = Ok d'.
Proof.
  intros Hq Hr. unfold App.order_line, get_quantity, App.insert_order_item.
  rewrite Hq. simpl. rewrite (bind_int_range q Hr). simpl.
  destruct (App.select_product (name i) d) as [r|].
  - unfold App.update_stock. rewrite (bind_int_range q Hr). simpl. eauto.
  - eauto.
Qed.

Lemma decrement_id q id r : App.p_id (App.decrement q id r) = App.p_id r.
Proof. unfold App.decrement. destruct (_ =? _)%Z; reflexivity. Qed.

Lemma decrement_name q id r : App.p_name (App.decrement q id r) = App.p_name r.
Proof. unfold App.decrement. destruct (_ =? _)%Z; reflexivity. Qed.

(** A name resolves to the same product id after rows were updated in
    place, names and ids kept. *)
Lemma select_product_map (f : App.product_row -> App.product_row)
      (n : string) (d d' : App.db) :
  (forall r, App.p_id (f r) = App.p_id r) ->
  (forall r, App.p_name (f r) = App.p_name r) ->
  rows (App.products d') = map f (rows (App.products d)) ->
  option_map App.p_id (App.select_product n d')
  = option_map App.p_id (App.select_product n d).
Proof.
  intros Hid Hname E. unfold App.select_product. rewrite E. clear E.
  induction (rows (App.products d)) as [|r l IH]; simpl; [reflexivity|].
  rewrite Hname. destruct (App.p_name r =? n); simpl; [|exact IH].
  now rewrite Hid.
Qed.

Lemma order_line_select oid i d d' n :
  App.order_line oid i d = Ok d' ->
  option_map App.p_id (App.select_product n d')
  = option_map App.p_id (App.select_product n d).
Proof.
  intros H. destruct (order_line_ok _ _ _ _ H) as (q & _ & _ & _ & _ & Hp).
  eapply select_product_map; [| |exact Hp];
    intros r; destruct (App.select_product (name i) d);
    auto using decrement_id, decrement_name.
Qed.

Lemma resolves_order_line oid i d d' id j :
  App.order_line oid i d = Ok d' -> resolves d' id j = resolves d id j.
Proof.
  intros H. unfold resolves.
  pose proof (order_line_select oid i d d' (name j) H) as E.
  destruct (App.select_product (name j) d'), (App.select_product (name j) d);
    simpl in E; congruence.
Qed.

Lemma purchased_order_line oid i d d' id c :
  App.order_line oid i d = Ok d' -> purchased d' id c = purchased d id c.
Proof.
  intros H. induction c as [|j c IH]; simpl; [reflexivity|].
  rewrite IH, (resolves_order_line oid i d d' id j H). reflexivity.
Qed.

(** ** The whole loop of [success] *)

Lemma sold_nil d r : sold d [] r = r.
Proof. destruct r. reflexivity. Qed.

Lemma stock_after_ext d1 d id c : forall s,
  (forall j, resolves d1 id j = resolves d id j) ->
  stock_after d1 id c s = stock_after d id c s.
Proof.
  induction c as [|j c IH]; simpl; intros s E; [reflexivity|].
  now rewrite E, IH.
Qed.

Lemma stock_after_app d id c1 c2 : forall s,
  stock_after d id (c1 ++ c2) s = stock_after d id c2 (stock_after d id c1 s).
Proof. induction c1 as [|j c1 IH]; simpl; intros s; [reflexivity | apply IH]. Qed.

Lemma sold_cons d i c r q :
  quantity i = Some q ->
  sold d c (match App.select_product (name i) d with
            | Some r0 => App.decrement q (App.p_id r0)
            | None => fun r => r
            end r)
  = sold d (i :: c) r.
Proof.
  intros Hq. unfold sold at 2. cbn [stock_after]. unfold resolves, qty.
  rewrite Hq.
  destruct (App.select_product (name i) d) as [r0|]; [|reflexivity].
  unfold App.decrement. rewrite (Z.eqb_sym (App.p_id r0)).
  destruct (App.p_id r =? App.p_id r0)%Z; reflexivity.
Qed.

Lemma for_each_order_line_frame oid c : forall d d',
  for_each (App.order_line oid) c d = Ok d' ->
  App.users d' = App.users d /\ App.orders d' = App.orders d.
Proof.
  induction c as [|i c IH]; simpl; intros d d' H.
  - injection H as <-. split; reflexivity.
  - bind_inv H. destruct (order_line_ok _ _ _ _ Ha) as (q & _ & Hu & Ho & _).
    destruct (IH _ _ H) as [Hu' Ho']. split; congruence.
Qed.

Lemma for_each_order_line_stock oid c : forall d d',
  for_each (App.order_line oid) c d = Ok d' ->
  rows (App.products d') = map (sold d c) (rows (App.products d)).
Proof.
  induction c as [|i c IH]; simpl; intros d d' H.
  - injection H as <-. rewrite (map_ext _ (fun r => r) (sold_nil d)).
    now rewrite map_id.
  - bind_inv H.
    destruct (order_line_ok _ _ _ _ Ha) as (q & Hq & _ & _ & _ & Hp).
    rewrite (IH _ _ H), Hp, map_map. apply map_ext. intros r.
    rewrite <- (sold_cons d i c r q Hq). unfold sold. f_equal.
    apply stock_after_ext. intros j.
    exact (resolves_order_line oid i d a _ j Ha).
Qed.

Lemma for_each_order_line_items oid c : forall d d',
  for_each (App.order_line oid) c d = Ok d' ->
  exists new,
    rows (App.order_items d') = rows (App.order_items d) ++ new
    /\ Forall2 (fun i r =>
                  App.oi_order_id r = oid
                  /\ App.oi_product_name r = Some (name i)
                  /\ App.oi_unit_price r = bind_float (price i)
                  /\ App.oi_quantity r = quantity i) c new.
Proof.
  induction c as [|i c IH]; simpl; intros d d' H.
  - injection H as <-. exists []. rewrite app_nil_r. split; constructor.
  - bind_inv H.
    destruct (order_line_ok _ _ _ _ Ha) as (q & Hq & _ & _ & Hi & _).
    destruct (IH _ _ H) as (new & Hn & Hf). rewrite Hi in Hn. simpl in Hn.
    eexists (_ :: new). split.
    + rewrite Hn, <- app_assoc. reflexivity.
    + constructor; [|exact Hf]. simpl. rewrite Hq. repeat split.
Qed.

Lemma for_each_order_line_total oid c : forall d,
  Forall (fun i => exists q, quantity i = Some q
                             /\ - 2 ^ 63 <= q <= 2 ^ 63 - 1) c ->
  exists d', for_each (App.order_line oid) c d = Ok d'.
Proof.
  induction c as [|i c IH]; simpl; intros d H; [eauto|].
  inversion H as [|? ? (q & Hq & Hr) Hc]; subst.
  destruct (order_line_total oid i d q Hq Hr) as [d1 E1]. rewrite E1. simpl.
  apply IH, Hc.
Qed.

(** ** [success] as a whole *)

Lemma success_anonymous utcnow w :
  s_user (App.sess w) = None ->
  App.success utcnow w
  = Ok (redirect (url_for "login") 302,
        App.with_session (flash "Please log in to access this page." "warning"
                                (App.sess w)) w).
Proof. intros H. unfold App.success, App.login_required. now rewrite H. Qed.

Lemma success_empty utcnow w u :
  s_user (App.sess w) = Some u -> session_get_cart (App.sess w) = [] ->
  App.success utcnow w
  = Ok (render_template "success.html" [],
        App.with_session (popped (App.sess w)) w).
Proof.
  intros Hu Hc.
  unfold App.success, App.login_required, popped, session_pop_cart.
  now rewrite Hu, Hc.
Qed.

Lemma success_ok utcnow w u r w' :
  s_user (App.sess w) = Some u ->
  App.success utcnow w = Ok (r, w') ->
  r = render_template "success.html" []
  /\ App.sess w' = popped (App.sess w)
  /\ App.stripe_requests w' = App.stripe_requests w
  /\ (session_get_cart (App.sess w) = [] /\ App.database w' = App.database w
      \/ exists total t d1,
        session_get_cart (App.sess w) <> []
        /\ Py.sum App.line_total (session_get_cart (App.sess w)) = Ok total
        /\ bind_real total = Ok (Some t)
        /\ App.insert_order (Some u) (Some t) utcnow (App.database w)
           = Ok (next_rowid App.o_id (App.orders (App.database w)), d1)
        /\ for_each (App.order_line
                       (next_rowid App.o_id (App.orders (App.database w))))
                    (session_get_cart (App.sess w)) d1
           = Ok (App.database w')).
Proof.
  intros Hu H. unfold App.success, App.login_required in H.
  rewrite Hu in H. unfold session_pop_cart in H. unfold popped, session_pop_cart.
  cbn [snd].
  destruct (session_get_cart (App.sess w)) as [|i c] eqn:Ec.
  - injection H as <- <-.
    split; [reflexivity|]. split; [reflexivity|]. split; [reflexivity|].
    left. split; reflexivity.
  - bind_inv H. rename a into total. bind_inv H. rename a into t'.
    bind_inv H. destruct a as [oid d1]. bind_inv H. injection H as <- <-.
    cbn [s_user] in Ha1. rewrite ?Hu in Ha1. unfold App.insert_order in Ha1.
    destruct t' as [t|]; [|discriminate]. simpl in Ha1.
    injection Ha1 as <- <-.
    split; [reflexivity|]. split; [reflexivity|]. split; [reflexivity|].
    right. exists total, t. eexists.
    split; [discriminate|]. split; [exact Ha|]. split; [exact Ha0|].
    split; [reflexivity|]. exact Ha2.
Qed.

Lemma success_run utcnow w u total t d' :
  s_user (App.sess w) = Some u ->
  session_get_cart (App.sess w) <> [] ->
  Py.sum App.line_total (session_get_cart (App.sess w)) = Ok total ->
  bind_real total = Ok (Some t) ->
  (forall oid d1,
      App.insert_order (Some u) (Some t) utcnow (App.database w)
      = Ok (oid, d1) ->
      for_each (App.order_line oid) (session_get_cart (App.sess w)) d1
      = Ok d') ->
  App.success utcnow w
  = Ok (render_template "success.html" [],
        {| App.sess := popped (App.sess w); App.database := d';
           App.stripe_requests := App.stripe_requests w |}).
Proof.
  intros Hu Hc Ht Hb Hd.
  unfold App.success, App.login_required, popped, session_pop_cart.
  rewrite Hu. cbn [snd s_user].
  destruct (session_get_cart (App.sess w)) as [|i c]; [congruence|].
  rewrite Ht. cbn [bind]. rewrite Hb. cbn [bind].
  destruct (App.insert_order (Some u) (Some t) utcnow (App.database w))
    as [[oid d1]|e] eqn:E; [|discriminate E].
  cbn [bind]. rewrite (Hd oid d1 eq_refl). reflexivity.
Qed.

(** The confirmation completes whenever the cart can be totalled and every
    quantity fits a 64-bit integer: it never looks at the stock. *)
Lemma success_total utcnow w u total t :
  s_user (App.sess w) = Some u ->
  Py.sum App.line_total (session_get_cart (App.sess w)) = Ok total ->
  bind_real total = Ok (Some t) ->
  Forall (fun i => exists q, quantity i = Some q
                             /\ - 2 ^ 63 <= q <= 2 ^ 63 - 1)
         (session_get_cart (App.sess w)) ->
  exists w', App.success utcnow w = Ok (render_template "success.html" [], w').
Proof.
  intros Hu Ht Hb Hq.
  destruct (session_get_cart (App.sess w)) as [|i c] eqn:Ec.
  - rewrite (success_empty utcnow w u Hu Ec). eauto.
  - destruct (for_each_order_line_total
                (next_rowid App.o_id (App.orders (App.database w))) (i :: c)
                {| App.users := App.users (App.database w);
                   App.products := App.products (App.database w);
                   App.orders :=
                     snd (insert App.o_id
                            (fun id => {| App.o_id := id;
                                          App.o_user_email := u;
                                          App.o_total := t;
                                          App.o_created_at := utcnow |})
                            (App.orders (App.database w)));
                   App.order_items := App.order_items (App.database w) |}
                Hq) as [d' Hd'].
    eexists. apply (success_run utcnow w u total t d' Hu); rewrite ?Ec;
      try assumption; try discriminate.
    intros oid d1 E. unfold App.insert_order in E. simpl in E.
    injection E as <- <-. exact Hd'.
Qed.

(** ** Checkout confirmation *)

Lemma sum_widget_gadget :
  Py.sum App.line_total [widget 2; gadget 1] = Ok (Py.Float 25%float).
Proof. vm_compute. reflexivity. Qed.

(** C1: confirming the cart Widget (10.00, 2 units), Gadget (5.00, 1 unit)
    inserts one order of total 25.00 stamped with the clock reading, inserts
    the two order items with the names, prices and quantities of the cart
    entries, and removes the cart from the session. *)
Theorem success_widget_gadget
        (utcnow u : string) (fl : list (string * string)) (d : App.db)
        (rq : list App.create_params) :
  let w := {| App.sess := {| s_user := Some u;
                             s_cart := Some [widget 2; gadget 1];
                             s_flashes := fl |};
              App.database := d; App.stripe_requests := rq |} in
  let oid := next_rowid App.o_id (App.orders d) in
  let iid := next_rowid App.oi_id (App.order_items d) in
  exists d',
    App.success utcnow w
    = Ok (render_template "success.html" [],
          {| App.sess := {| s_user := Some u; s_cart := None;
                            s_flashes := fl |};
             App.database := d'; App.stripe_requests := rq |})
    /\ session_get_cart {| s_user := Some u; s_cart := None;
                           s_flashes := fl |} = []
    /\ rows (App.orders d')
       = rows (App.orders d)
         ++ [{| App.o_id := oid; App.o_user_email := u;
                App.o_total := 25%float; App.o_created_at := utcnow |}]
    /\ rows (App.order_items d')
       = rows (App.order_items d)
         ++ [{| App.oi_id := iid; App.oi_order_id := oid;
                App.oi_product_id :=
                  option_map App.p_id (App.select_product "Widget" d);
                App.oi_product_name := Some "Widget";
                App.oi_unit_price := Some 10%float;
                App.oi_quantity := Some 2 |};
             {| App.oi_id := iid + 1; App.oi_order_id := oid;
                App.oi_product_id :=
                  option_map App.p_id (App.select_product "Gadget" d);
                App.oi_product_name := Some "Gadget";
                App.oi_unit_price := Some 5%float;
                App.oi_quantity := Some 1 |}]
    /\ App.users d' = App.users d.
Proof.
  intros w oid iid.
  set (d1 := {| App.users := App.users d; App.products := App.products d;
                App.orders :=
                  snd (insert App.o_id
                         (fun id => {| App.o_id := id; App.o_user_email := u;
                                       App.o_total := 25%float;
                                       App.o_created_at := utcnow |})
                         (App.orders d));
                App.order_items := App.order_items d |}).
  destruct (order_line_total oid (widget 2) d1 2 eq_refl) as [d2 E2]; [lia|].
  destruct (order_line_total oid (gadget 1) d2 1 eq_refl) as [d3 E3]; [lia|].
  exists d3.
  destruct (order_line_ok _ _ _ _ E2) as (q2 & Hq2 & Hu2 & Ho2 & Hi2 & _).
  destruct (order_line_ok _ _ _ _ E3) as (q3 & Hq3 & Hu3 & Ho3 & Hi3 & _).
  injection Hq2 as <-. injection Hq3 as <-.
  split; [|split; [reflexivity|split; [|split]]].
  - apply (success_run utcnow w u (Py.Float 25%float) 25%float d3);
      [reflexivity | discriminate | exact sum_widget_gadget | reflexivity |].
    intros oid' d1' E. unfold App.insert_order in E. simpl in E.
    injection E as <- <-.
    change ((d0 <- App.order_line oid (widget 2) d1 ;;
             d0' <- App.order_line oid (gadget 1) d0 ;; Ok d0') = Ok d3).
    rewrite E2. cbn [bind]. rewrite E3. reflexivity.
  - rewrite Ho3, Ho2. reflexivity.
  - rewrite Hi3, Hi2. unfold insert at 1. cbn [snd rows].
    rewrite next_rowid_insert by reflexivity.
    unfold insert. cbn [snd rows]. rewrite <- app_assoc. cbn [app].
    rewrite (order_line_select oid (widget 2) d1 d2 (name (gadget 1)) E2).
    reflexivity.
  - rewrite Hu3, Hu2. reflexivity.
Qed.

(** C10: with an empty cart in the session the confirmation writes nothing:
    the database is the same afterwards and the cart is still empty. *)
Theorem success_empty_cart_noop (utcnow : string) (w : App.world) :
  session_get_cart (App.sess w) = [] ->
  exists r w',
    App.success utcnow w = Ok (r, w')
    /\ App.database w' = App.database w
    /\ session_get_cart (App.sess w') = [].
Proof.
  intros Hc. destruct (s_user (App.sess w)) as [u|] eqn:Hu.
  - rewrite (success_empty utcnow w u Hu Hc). do 2 eexists.
    split; [reflexivity|]. split; reflexivity.
  - rewrite (success_anonymous utcnow w Hu). do 2 eexists.
    split; [reflexivity|]. split; [reflexivity | exact Hc].
Qed.

Lemma success_empty_cart_noop_witness :
  exists r w',
    App.success "2026-11-04T10:00:00" (visit None) = Ok (r, w')
    /\ App.database w' = App.database (visit None)
    /\ session_get_cart (App.sess w') = [].
Proof.
  apply (success_empty_cart_noop "2026-11-04T10:00:00" (visit None)).
  reflexivity.
Defined.



(** C2, counterexample: the handler keeps no trace of a confirmation it has
    served.  The same request presented a second time, with the session as
    it was before the first one, inserts a second order. *)
Lemma success_stale_session_inserts_again :
  exists r w' r' w'',
    App.success "2026-11-04T10:00:00" (visit (Some [widget 2; gadget 1]))
    = Ok (r, w')
    /\ App.success "2026-11-04T10:00:05"
                   {| App.sess := logged_in (Some [widget 2; gadget 1]);
                      App.database := App.database w';
                      App.stripe_requests := App.stripe_requests w' |}
       = Ok (r', w'')
    /\ map App.o_id (rows (App.orders (App.database w'))) = [1]
    /\ map App.o_id (rows (App.orders (App.database w''))) = [1; 2].
Proof.
  do 4 eexists. split; [vm_compute; reflexivity|].
  split; [vm_compute; reflexivity|]. split; reflexivity.
Qed.

(** ** Stock *)

Lemma resolves_products d1 d id j :
  App.products d1 = App.products d -> resolves d1 id j = resolves d id j.
Proof. intros E. unfold resolves, App.select_product. now rewrite E. Qed.

Lemma sold_products d1 d c p :
  App.products d1 = App.products d -> sold d1 c p = sold d c p.
Proof.
  intros E. unfold sold. f_equal. apply stock_after_ext. intros j.
  now apply resolves_products.
Qed.

Lemma success_products (utcnow : string) (w : App.world) (u : string)
      (r : response) (w' : App.world) :
  s_user (App.sess w) = Some u ->
  App.success utcnow w = Ok (r, w') ->
  rows (App.products (App.database w'))
  = map (sold (App.database w) (session_get_cart (App.sess w)))
        (rows (App.products (App.database w))).
Proof.
  intros Hu H.
  destruct (success_ok utcnow w u r w' Hu H)
    as (_ & _ & _ & [[Hc Hd] | (total & t & d1 & _ & _ & _ & Hi & Hf)]).
  - rewrite Hd, Hc, (map_ext _ (fun p => p) (sold_nil _)). now rewrite map_id.
  - rewrite (for_each_order_line_stock _ _ _ _ Hf).
    unfold App.insert_order in Hi. simpl in Hi. injection Hi as <-.
    apply map_ext. intros p. now apply sold_products.
Qed.

Lemma bind_int_ok_range (q q' : Z) :
  bind_int q = Ok q' -> - 2 ^ 63 <= q <= 2 ^ 63 - 1.
Proof.
  unfold bind_int.
  destruct (- 2 ^ 63 <=? q)%Z eqn:E1; destruct (q <=? 2 ^ 63 - 1)%Z eqn:E2;
    simpl; intros H; try discriminate H; lia.
Qed.

Lemma order_line_fits (oid : Z) (i : item) (d d' : App.db) :
  App.order_line oid i d = Ok d' -> fits i.
Proof.
  unfold App.order_line, get_quantity, App.insert_order_item. intros H.
  destruct (quantity i) as [q|] eqn:Eq; [|discriminate H]. cbn [bind] in H.
  destruct (bind_int q) as [q'|] eqn:Eb; [|discriminate H].
  exists q. split; [exact Eq | exact (bind_int_ok_range q q' Eb)].
Qed.

Lemma for_each_order_line_fits (oid : Z) (c : list item) : forall d d',
  for_each (App.order_line oid) c d = Ok d' -> Forall fits c.
Proof.
  induction c as [|i c IH]; simpl; intros d d' H; [constructor|].
  bind_inv H. constructor; [exact (order_line_fits _ _ _ _ Ha) | eauto].
Qed.



(** ** Who writes to the products table *)





(** ** Cancelling *)

Lemma flash_cart message category s :
  session_get_cart (flash message category s) = session_get_cart s.
Proof. reflexivity. Qed.

(** C8: [cancel] only flashes a notice and redirects: the cart in the
    session, the database (orders and stock) and the provider requests are
    untouched, and the cart page answers as it did before. *)
Theorem cancel_keeps_cart (w : App.world) :
  exists r w',
    App.cancel w = Ok (r, w')
    /\ s_cart (App.sess w') = s_cart (App.sess w)
    /\ s_user (App.sess w') = s_user (App.sess w)
    /\ App.database w' = App.database w
    /\ App.stripe_requests w' = App.stripe_requests w
    /\ response_of (App.cart w') = response_of (App.cart w).
Proof.
  unfold App.cancel, App.login_required.
  destruct (s_user (App.sess w)) as [u|] eqn:Hu; do 2 eexists;
    (split; [reflexivity|]); repeat (split; [now simpl|]);
    unfold App.cart, App.login_required; simpl; rewrite Hu; simpl;
    [|reflexivity].
  rewrite !flash_cart.
  destruct (Py.sum App.line_total (session_get_cart (App.sess w)));
    reflexivity.
Qed.

(** ** Starting a checkout *)

Lemma hundred : Py.float_of_int 100 = Ok 100%float.
Proof. vm_compute. reflexivity. Qed.







(** ** The admin gate *)



(** ** Registration *)

Lemma isspace_lower_char (c : ascii) :
  Py.isspace (Py.lower_char c) = Py.isspace c.
Proof. destruct c as [[] [] [] [] [] [] [] []]; vm_compute; reflexivity. Qed.

Lemma lower_lstrip (s : string) : Py.lower (Py.lstrip s) = Py.lstrip (Py.lower s).
Proof.
  induction s as [|c s IH]; simpl; [reflexivity|].
  rewrite isspace_lower_char. destruct (Py.isspace c); [exact IH | reflexivity].
Qed.

Lemma lower_rstrip (s : string) : Py.lower (Py.rstrip s) = Py.rstrip (Py.lower s).
Proof.
  induction s as [|c s IH]; simpl; [reflexivity|].
  rewrite <- IH, isspace_lower_char.
  destruct (Py.rstrip s); simpl; [|reflexivity].
  destruct (Py.isspace c); reflexivity.
Qed.

Lemma lower_strip (s : string) : Py.lower (Py.strip s) = Py.strip (Py.lower s).
Proof. unfold Py.strip. now rewrite lower_rstrip, lower_lstrip. Qed.

(** Emails that differ by case only are normalized to the same email. *)
Lemma normalize_case (a b : string) :
  Py.lower a = Py.lower b ->
  Py.lower (Py.strip a) = Py.lower (Py.strip b).
Proof. intros H. now rewrite !lower_strip, H. Qed.

(** [register] of app.py stores the normalized email of a new user. *)
Lemma app_register_new hash req w :
  method req = POST ->
  App.password_is_strong (form_password req) = true ->
  registered (Py.lower (Py.strip (form_email req))) (App.database w) = false ->
  exists w',
    App.register hash req w = Ok (redirect (url_for "login") 302, w')
    /\ rows (App.users (App.database w'))
       = rows (App.users (App.database w))
         ++ [{| App.u_id := next_rowid App.u_id (App.users (App.database w));
                App.u_email := Py.lower (Py.strip (form_email req));
                App.u_password := hash (form_password req) |}].
Proof.
  intros Hm Hp Hn. unfold App.register, App.insert_user.
  unfold registered in Hn. rewrite Hm, Hp, Hn. simpl. eauto.
Qed.

(** [register] of app.py turns away an email that is already stored, once
    normalized, and leaves the database as it was. *)
Lemma app_register_duplicate hash req w :
  method req = POST ->
  App.password_is_strong (form_password req) = true ->
  registered (Py.lower (Py.strip (form_email req))) (App.database w) = true ->
  App.register hash req w
  = Ok (redirect (url_for "register") 302,
        App.with_session (flash "Email already registered!" "danger"
                                (App.sess w)) w).
Proof.
  intros Hm Hp Hn. unfold App.register, App.insert_user.
  unfold registered in Hn. rewrite Hm, Hp, Hn. reflexivity.
Qed.

(** X12: In app.py, of two registrations with strong passwords whose emails are
    equal up to case, the second is turned away as a duplicate and changes
    nothing in the database. *)
Lemma app_register_twice hash req1 req2 w r1 w1 :
  method req1 = POST -> method req2 = POST ->
  App.password_is_strong (form_password req1) = true ->
  App.password_is_strong (form_password req2) = true ->
  Py.lower (form_email req1) = Py.lower (form_email req2) ->
  App.register hash req1 w = Ok (r1, w1) ->
  App.register hash req2 w1
  = Ok (redirect (url_for "register") 302,
        App.with_session (flash "Email already registered!" "danger"
                                (App.sess w1)) w1).
Proof.
  intros Hm1 Hm2 Hp1 Hp2 He H1.
  apply app_register_duplicate; [exact Hm2 | exact Hp2 |].
  rewrite <- (normalize_case _ _ He).
  destruct (registered (Py.lower (Py.strip (form_email req1)))
                       (App.database w)) eqn:Hr.
  - rewrite (app_register_duplicate hash req1 w Hm1 Hp1 Hr) in H1.
    injection H1 as _ <-. exact Hr.
  - destruct (app_register_new hash req1 w Hm1 Hp1 Hr) as (w' & E & Hrows).
    rewrite E in H1. injection H1 as _ <-.
    unfold registered. rewrite Hrows, existsb_app. simpl.
    rewrite String.eqb_refl. now rewrite orb_true_r.
Qed.

(** C6, on admin_route.py: [register] stores the email as typed, so after
    "bob@shop.com" the registration of "Bob@Shop.com" is accepted and the
    users table holds both. *)
Theorem admin_route_register_accepts_case_variant :
  exists w1 w2,
    AdminRoute.register digest (post "bob@shop.com" "Passw0rd!") nobody
    = Ok (redirect (url_for "login") 302, w1)
    /\ AdminRoute.register digest (post "Bob@Shop.com" "Passw0rd!") w1
       = Ok (redirect (url_for "login") 302, w2)
    /\ map AdminRoute.u_email (rows (AdminRoute.users w2))
       = ["bob@shop.com"; "Bob@Shop.com"]
    /\ Py.lower "Bob@Shop.com" = Py.lower "bob@shop.com".
Proof.
  do 2 eexists. split; [vm_compute; reflexivity|].
  split; [vm_compute; reflexivity|]. split; reflexivity.
Qed.

(** The same two registrations on app.py: the second one is turned away. *)
Lemma app_register_rejects_case_variant :
  exists w1,
    App.register digest (post "bob@shop.com" "Passw0rd!") (visit None)
    = Ok (redirect (url_for "login") 302, w1)
    /\ App.register digest (post "  Bob@Shop.com " "Passw0rd!") w1
       = Ok (redirect (url_for "register") 302,
             App.with_session (flash "Email already registered!" "danger"
                                     (App.sess w1)) w1)
    /\ map App.u_email (rows (App.users (App.database w1)))
       = ["bob@shop.com"].
Proof.
  eexists. split; [vm_compute; reflexivity|].
  split; [vm_compute; reflexivity | reflexivity].
Qed.

(** * Further properties of the handlers *)

(** ** The cart *)

Lemma first_named (n : string) (c : list item) :
  Forall (fun j => named n j = false) c
  \/ exists l1 i l2,
      c = l1 ++ i :: l2
      /\ Forall (fun j => named n j = false) l1 /\ named n i = true.
Proof.
  induction c as [|j c IH]; [left; constructor|].
  destruct (named n j) eqn:Hj.
  - right. exists [], j, c. repeat split; [constructor | exact Hj].
  - destruct IH as [H | (l1 & i & l2 & -> & Hl1 & Hi)].
    + left. now constructor.
    + right. exists (j :: l1), i, l2. repeat split; [now constructor | exact Hi].
Qed.

Lemma named_existsb (n : string) (c : list item) :
  Forall (fun j => named n j = false) c <-> existsb (named n) c = false.
Proof.
  induction c as [|j c IH]; simpl.
  - split; [reflexivity | constructor].
  - rewrite orb_false_iff, <- IH. split.
    + intros H. inversion H; subst. now split.
    + intros [H1 H2]. now constructor.
Qed.

(** What [add_to_cart] leaves in the cart, by cases on the name. *)
Lemma add_to_cart_cases (n : string) (p : float) (ref : option string)
      (w : App.world) :
  s_user (App.sess w) <> None ->
  exists c',
    App.add_to_cart n p ref w
    = Ok (redirect (referrer_or ref (url_for "main")) 302, added n c' w)
    /\ ((exists l1 i l2,
            session_get_cart (App.sess w) = l1 ++ i :: l2
            /\ Forall (fun j => named n j = false) l1
            /\ named n i = true
            /\ c' = map App.default_quantity l1
                    ++ set_quantity (qty i + 1) i
                    :: map App.default_quantity l2)
        \/ (Forall (fun j => named n j = false)
                   (session_get_cart (App.sess w))
            /\ c' = map App.default_quantity (session_get_cart (App.sess w))
                    ++ [new_entry n p])).
Proof.
  intros Hu. destruct (logged_in_some _ Hu) as [u Eu].
  destruct (first_named n (session_get_cart (App.sess w)))
    as [H | (l1 & i & l2 & Hc & Hl1 & Hi)].
  - eexists. split.
    + apply (add_to_cart_run n p ref w u None Eu). now apply increment_absent.
    + right. split; [exact H | reflexivity].
  - eexists. split.
    + apply (add_to_cart_run n p ref w u (Some _) Eu).
      rewrite Hc. now apply increment_found.
    + left. exists l1, i, l2. repeat split; assumption.
Qed.

Lemma default_quantity_has (c : list item) :
  Forall (fun i => quantity i <> None) (map App.default_quantity c).
Proof.
  induction c as [|i c IH]; simpl; constructor; [|exact IH].
  rewrite default_quantity_qty. discriminate.
Qed.

Lemma qty_default_quantity (i : item) : qty (App.default_quantity i) = qty i.
Proof. unfold qty at 1. now rewrite default_quantity_qty. Qed.

Lemma default_quantity_positive (c : list item) :
  Forall (fun i => 1 <= qty i) c ->
  Forall (fun i => 1 <= qty i) (map App.default_quantity c).
Proof.
  induction 1 as [|i c Hi _ IH]; simpl; constructor; [|exact IH].
  now rewrite qty_default_quantity.
Qed.

(** X1: [add_to_cart] cannot fail on a missing "quantity" key: its first loop
    repairs every entry before the second one reads any.  Afterwards every
    entry carries a quantity, and quantities that were at least 1 (an entry
    without the key counting for 1) are still at least 1. *)
Theorem add_to_cart_repairs_cart
        (n : string) (p : float) (ref : option string) (w : App.world) :
  s_user (App.sess w) <> None ->
  exists c',
    App.add_to_cart n p ref w
    = Ok (redirect (referrer_or ref (url_for "main")) 302, added n c' w)
    /\ Forall (fun i => quantity i <> None) c'
    /\ (Forall (fun i => 1 <= qty i) (session_get_cart (App.sess w)) ->
        Forall (fun i => 1 <= qty i) c').
Proof.
  intros Hu.
  destruct (add_to_cart_cases n p ref w Hu)
    as (c' & E & [(l1 & i & l2 & Hc & _ & _ & ->) | (_ & ->)]);
    eexists; (split; [exact E|]); split.
  - apply Forall_app. split; [apply default_quantity_has|].
    constructor; [discriminate | apply default_quantity_has].
  - rewrite Hc. intros H. apply Forall_app in H as [H1 H2].
    inversion H2 as [|? ? Hi H2']; subst.
    apply Forall_app. split; [now apply default_quantity_positive|].
    constructor; [unfold qty; simpl; fold (qty i); lia|].
    now apply default_quantity_positive.
  - apply Forall_app. split; [apply default_quantity_has|].
    constructor; [discriminate | constructor].
  - intros H. apply Forall_app. split; [now apply default_quantity_positive|].
    constructor; [unfold qty; simpl; lia | constructor].
Qed.

Lemma add_to_cart_repairs_cart_witness :
  exists c',
    App.add_to_cart "Gadget" 5%float None
                    (visit (Some [{| name := "Widget"; price := 10%float;
                                     quantity := None |}]))
    = Ok (redirect (url_for "main") 302,
          added "Gadget" c'
                (visit (Some [{| name := "Widget"; price := 10%float;
                                 quantity := None |}])))
    /\ Forall (fun i => quantity i <> None) c'
    /\ (Forall (fun i => 1 <= qty i)
               [{| name := "Widget"; price := 10%float; quantity := None |}] ->
        Forall (fun i => 1 <= qty i) c').
Proof.
  apply (add_to_cart_repairs_cart
           "Gadget" 5%float None
           (visit (Some [{| name := "Widget"; price := 10%float;
                            quantity := None |}]))).
  discriminate.
Defined.

Lemma names_default_quantity (c : list item) :
  map name (map App.default_quantity c) = map name c.
Proof.
  rewrite map_map. apply map_ext. intros i. apply default_quantity_name.
Qed.

(** X2: [add_to_cart] keeps the names of the cart pairwise distinct: it only
    appends an entry whose name no entry has. *)
Theorem add_to_cart_keeps_names_distinct
        (n : string) (p : float) (ref : option string) (w : App.world) :
  s_user (App.sess w) <> None ->
  NoDup (map name (session_get_cart (App.sess w))) ->
  exists r w',
    App.add_to_cart n p ref w = Ok (r, w')
    /\ NoDup (map name (session_get_cart (App.sess w'))).
Proof.
  intros Hu Hnd.
  destruct (add_to_cart_cases n p ref w Hu)
    as (c' & E & [(l1 & i & l2 & Hc & _ & _ & ->) | (Habs & ->)]);
    do 2 eexists; (split; [exact E|]); rewrite added_cart.
  - rewrite Hc in Hnd. rewrite map_app in *. simpl in *.
    now rewrite !names_default_quantity.
  - rewrite map_app, names_default_quantity. simpl.
    apply NoDup_app; [exact Hnd | repeat constructor; intros [] |].
    intros x Hx [<-|[]]. apply in_map_iff in Hx as (j & Hj & Hin).
    rewrite Forall_forall in Habs. specialize (Habs j Hin).
    unfold named in Habs. rewrite Hj, String.eqb_refl in Habs. discriminate.
Qed.

Lemma add_to_cart_keeps_names_distinct_witness :
  exists r w',
    App.add_to_cart "Gadget" 5%float None (visit (Some [widget 2]))
    = Ok (r, w')
    /\ NoDup (map name (session_get_cart (App.sess w'))).
Proof.
  apply (add_to_cart_keeps_names_distinct
           "Gadget" 5%float None (visit (Some [widget 2]))).
  - discriminate.
  - repeat constructor; simpl; intuition discriminate.
Defined.

Lemma units_app (c1 c2 : list item) : units (c1 ++ c2) = units c1 + units c2.
Proof. induction c1 as [|i c1 IH]; simpl; [reflexivity|]. rewrite IH. lia. Qed.

Lemma units_default_quantity (c : list item) :
  units (map App.default_quantity c) = units c.
Proof.
  induction c as [|i c IH]; simpl; [reflexivity|].
  now rewrite IH, qty_default_quantity.
Qed.

(** X3: Each [add_to_cart] adds exactly one unit to the cart; the cart grows by
    one entry when no entry had the name and keeps its length otherwise. *)
Theorem add_to_cart_adds_one_unit
        (n : string) (p : float) (ref : option string) (w : App.world) :
  s_user (App.sess w) <> None ->
  exists r w',
    App.add_to_cart n p ref w = Ok (r, w')
    /\ units (session_get_cart (App.sess w'))
       = units (session_get_cart (App.sess w)) + 1
    /\ List.length (session_get_cart (App.sess w'))
       = (List.length (session_get_cart (App.sess w))
          + (if existsb (named n) (session_get_cart (App.sess w))
             then 0 else 1))%nat.
Proof.
  intros Hu.
  destruct (add_to_cart_cases n p ref w Hu)
    as (c' & E & [(l1 & i & l2 & Hc & Hl1 & Hi & ->) | (Habs & ->)]);
    do 2 eexists; (split; [exact E|]); rewrite added_cart; split.
  - rewrite Hc, !units_app. simpl. rewrite !units_default_quantity.
    unfold qty at 1. simpl. lia.
  - rewrite Hc, existsb_app. simpl. rewrite Hi, orb_true_r.
    rewrite !length_app. simpl. rewrite !length_map. lia.
  - rewrite units_app, units_default_quantity. simpl. unfold qty. simpl. lia.
  - apply named_existsb in Habs. rewrite Habs, length_app, length_map.
    reflexivity.
Qed.

Lemma add_to_cart_adds_one_unit_witness :
  exists r w',
    App.add_to_cart "Widget" 10%float None (visit (Some [gadget 1; widget 2]))
    = Ok (r, w')
    /\ units (session_get_cart (App.sess w')) = units [gadget 1; widget 2] + 1
    /\ List.length (session_get_cart (App.sess w')) = (2 + 0)%nat.
Proof.
  apply (add_to_cart_adds_one_unit
           "Widget" 10%float None (visit (Some [gadget 1; widget 2]))).
  discriminate.
Defined.

(** ** The cart page *)

Lemma float_of_int_raise (z : Z) (e : exn) :
  Py.float_of_int z = Raise e -> e = OverflowError.
Proof.
  unfold Py.float_of_int.
  destruct (binary_normalize prec emax z 0 false); intros H;
    try discriminate H; now injection H.
Qed.

Lemma float_of_int_zero : Py.float_of_int 0 = Ok 0%float.
Proof. vm_compute. reflexivity. Qed.

Lemma line_total_cases (i : item) :
  (quantity i = None /\ App.line_total i = Raise (KeyError "quantity"))
  \/ (quantity i <> None
      /\ (App.line_total i = Raise OverflowError
          \/ exists f, App.line_total i = Ok (Py.Float f))).
Proof.
  unfold App.line_total, get_quantity.
  destruct (quantity i) as [q|]; [right | left; split; reflexivity].
  split; [discriminate|]. simpl.
  destruct (Py.float_of_int q) as [f|e] eqn:E; simpl; [right; eauto|].
  left. now rewrite (float_of_int_raise q e E).
Qed.

Lemma add_plain (acc : Py.number) (f : float) :
  acc = Py.Int 0 \/ (exists a, acc = Py.Float a) ->
  exists s, Py.add acc (Py.Float f) = Ok (Py.Float s).
Proof.
  intros [-> | [a ->]]; unfold Py.add, Py.to_float;
    [rewrite float_of_int_zero|]; cbn [bind]; eauto.
Qed.

(** How the sum of the line totals can end. *)
Lemma sum_from_cases (c : list item) : forall acc,
  acc = Py.Int 0 \/ (exists a, acc = Py.Float a) ->
  (Exists (fun i => quantity i = None) c
   /\ Py.sum_from App.line_total acc c = Raise (KeyError "quantity"))
  \/ Py.sum_from App.line_total acc c = Raise OverflowError
  \/ (Forall (fun i => quantity i <> None) c
      /\ ((c = [] /\ Py.sum_from App.line_total acc c = Ok acc)
          \/ (c <> []
              /\ exists f, Py.sum_from App.line_total acc c
                           = Ok (Py.Float f)))).
Proof.
  induction c as [|i c IH]; intros acc Hacc; simpl.
  - right. right. split; [constructor|]. left. split; reflexivity.
  - destruct (line_total_cases i) as [[Hq ->] | [Hq [-> | [f ->]]]]; simpl.
    + left. split; [now constructor | reflexivity].
    + right. left. reflexivity.
    + destruct (add_plain acc f Hacc) as [s ->]. simpl.
      destruct (IH (Py.Float s)) as [[Hex E] | [E | [Hall HE]]];
        [right; eauto | | | ].
      * left. split; [now constructor 2 | exact E].
      * right. left. exact E.
      * right. right. split; [now constructor|]. right.
        split; [discriminate|].
        destruct HE as [[-> E] | [_ [g E]]]; simpl in *; eauto.
Qed.

Lemma sum_key_error (c : list item) (k : string) :
  Py.sum App.line_total c = Raise (KeyError k) ->
  k = "quantity" /\ Exists (fun i => quantity i = None) c.
Proof.
  unfold Py.sum. intros H.
  destruct (sum_from_cases c (Py.Int 0)) as [[Hex E] | [E | [_ HE]]];
    [left; reflexivity | | | ].
  - rewrite E in H. injection H as <-. now split.
  - rewrite E in H. discriminate H.
  - destruct HE as [[_ E] | [_ [f E]]]; rewrite E in H; discriminate H.
Qed.

Lemma cart_raise (w : App.world) (u : string) (e : exn) :
  s_user (App.sess w) = Some u ->
  App.cart w = Raise e ->
  Py.sum App.line_total (session_get_cart (App.sess w)) = Raise e.
Proof.
  intros Hu. unfold App.cart, App.login_required. rewrite Hu.
  destruct (Py.sum _ _) as [t|e0]; cbn [bind]; intros H;
    [discriminate H | now injection H as ->].
Qed.

(** X4: The cart page fails with a KeyError only on an entry without quantity;
    when every entry has one, nothing but the OverflowError of a quantity
    too large for a float can stop it; an empty cart shows the total 0. *)
Theorem cart_page_errors (w : App.world) (u : string) :
  s_user (App.sess w) = Some u ->
  (forall k, App.cart w = Raise (KeyError k) ->
             k = "quantity"
             /\ Exists (fun i => quantity i = None)
                       (session_get_cart (App.sess w)))
  /\ (Forall (fun i => quantity i <> None) (session_get_cart (App.sess w)) ->
      App.cart w = Raise OverflowError
      \/ exists total,
          App.cart w
          = Ok (render_template "cart.html"
                  [("cart_items", Items (session_get_cart (App.sess w)));
                   ("total", Number total)], w))
  /\ (session_get_cart (App.sess w) = [] ->
      App.cart w
      = Ok (render_template "cart.html"
              [("cart_items", Items []); ("total", Number (Py.Int 0))], w)).
Proof.
  intros Hu. unfold App.cart, App.login_required. rewrite Hu.
  unfold Py.sum.
  destruct (sum_from_cases (session_get_cart (App.sess w)) (Py.Int 0))
    as [[Hex E] | [E | [Hall HE]]]; [left; reflexivity | | | ].
  - rewrite E. simpl. split; [|split].
    + intros k H. injection H as <-. split; [reflexivity | exact Hex].
    + intros Hall. exfalso. apply Exists_exists in Hex as (i & Hi & Hq).
      rewrite Forall_forall in Hall. exact (Hall i Hi Hq).
    + intros Hc. rewrite Hc in Hex. inversion Hex.
  - rewrite E. simpl. split; [|split].
    + intros k H. discriminate H.
    + intros _. left. reflexivity.
    + intros Hc. rewrite Hc in E. discriminate E.
  - destruct HE as [[Hc E] | [Hne [f E]]]; rewrite E; simpl;
      (split; [intros k H; discriminate H|]); split.
    + intros _. right. eauto.
    + intros _. rewrite Hc. reflexivity.
    + intros _. right. eauto.
    + intros Hc. contradiction.
Qed.

Lemma cart_page_errors_witness :
  App.cart (visit None)
  = Ok (render_template "cart.html"
          [("cart_items", Items []); ("total", Number (Py.Int 0))],
        visit None).
Proof.
  apply (proj2 (proj2 (cart_page_errors (visit None) "ann@shop.com" eq_refl))).
  reflexivity.
Defined.

(** X5: After an [add_to_cart] the cart page never fails on a missing
    "quantity" key, whatever the cart held before. *)
Theorem add_to_cart_then_cart_page
        (n : string) (p : float) (ref : option string) (w : App.world)
        (r : response) (w' : App.world) (k : string) :
  s_user (App.sess w) <> None ->
  App.add_to_cart n p ref w = Ok (r, w') ->
  App.cart w' <> Raise (KeyError k).
Proof.
  intros Hu H Hk. destruct (logged_in_some _ Hu) as [u Eu].
  destruct (add_to_cart_cases n p ref w Hu) as (c' & E & Hc').
  rewrite E in H. injection H as _ <-.
  assert (Hall : Forall (fun i => quantity i <> None) c').
  { destruct Hc' as [(l1 & i & l2 & _ & _ & _ & ->) | (_ & ->)];
      apply Forall_app; (split; [apply default_quantity_has|]).
    - constructor; [discriminate | apply default_quantity_has].
    - constructor; [discriminate | constructor]. }
  apply (cart_raise (added n c' w) u _ Eu) in Hk.
  apply sum_key_error in Hk as [_ Hex]. rewrite added_cart in Hex. apply Exists_exists in Hex as (i & Hi & Hq).
  rewrite Forall_forall in Hall. exact (Hall i Hi Hq).
Qed.

Lemma add_to_cart_then_cart_page_witness :
  App.cart (added "Gadget"
                  [{| name := "Widget"; price := 10%float;
                      quantity := Some 1 |}; gadget 1]
                  (visit (Some [{| name := "Widget"; price := 10%float;
                                   quantity := None |}])))
  <> Raise (KeyError "quantity").
Proof.
  apply (add_to_cart_then_cart_page
           "Gadget" 5%float None
           (visit (Some [{| name := "Widget"; price := 10%float;
                            quantity := None |}]))
           (redirect (url_for "main") 302)).
  - discriminate.
  - reflexivity.
Defined.

(** ** Sessions without a user *)

(** X6: None of the handlers behind [login_required] runs for a session without
    user: each answers the redirect to the login page and only adds the
    flashed notice.  In particular /success neither pops the cart nor writes
    an order, and /checkout sends nothing to the provider. *)
Theorem anonymous_is_sent_to_login
        (Session_create : App.create_params -> result App.checkout_session)
        (utcnow n : string) (p : float) (ref : option string)
        (w : App.world) :
  s_user (App.sess w) = None ->
  App.add_to_cart n p ref w = to_login w
  /\ App.cart w = to_login w
  /\ App.checkout Session_create w = to_login w
  /\ App.success utcnow w = to_login w
  /\ App.cancel w = to_login w.
Proof.
  intros Hu.
  unfold App.add_to_cart, App.cart, App.checkout, App.success, App.cancel,
    App.login_required, to_login.
  rewrite Hu. repeat split.
Qed.

Lemma anonymous_is_sent_to_login_witness :
  App.success "2026-11-04T10:00:00"
              {| App.sess := {| s_user := None; s_cart := Some [widget 2];
                                s_flashes := [] |};
                 App.database := shop; App.stripe_requests := [] |}
  = to_login {| App.sess := {| s_user := None; s_cart := Some [widget 2];
                               s_flashes := [] |};
                App.database := shop; App.stripe_requests := [] |}.
Proof.
  apply (anonymous_is_sent_to_login provider "2026-11-04T10:00:00" "Widget"
                                    10%float None).
  reflexivity.
Defined.

(** ** Starting a checkout, read backwards *)

Lemma session_item_ok (i : item) (li : App.line_item) :
  App.session_item i = Ok li -> line_of i li.
Proof.
  unfold App.session_item, Py.mul, Py.to_float. rewrite hundred. cbn [bind].
  intros H. bind_inv H. rename a into amount. bind_inv H. rename a into q.
  injection H as <-. unfold line_of. simpl.
  unfold get_quantity in Ha0. destruct (quantity i); [|discriminate].
  injection Ha0 as ->. auto.
Qed.

Lemma for_list_session_item_ok (c : list item) : forall items,
  for_list App.session_item c = Ok items -> Forall2 line_of c items.
Proof.
  induction c as [|i c IH]; simpl; intros items H.
  - injection H as <-. constructor.
  - bind_inv H. rename a into li. bind_inv H. injection H as <-.
    constructor; [now apply session_item_ok | now apply IH].
Qed.

(** X7: Whenever [checkout] answers on a non-empty cart, exactly one request
    went to the provider, with one line item per cart entry in cart order;
    the answer is the redirect with code 303 to the address the provider
    returned, and the session and the database are as before. *)
Theorem checkout_answer_means_one_request
        (Session_create : App.create_params -> result App.checkout_session)
        (w : App.world) (u : string) (r : response) (w' : App.world) :
  s_user (App.sess w) = Some u ->
  session_get_cart (App.sess w) <> [] ->
  App.checkout Session_create w = Ok (r, w') ->
  exists items cs,
    Forall2 line_of (session_get_cart (App.sess w)) items
    /\ Session_create (checkout_params (App.sess w) items) = Ok cs
    /\ r = redirect (url (App.cs_url cs)) 303
    /\ App.sess w' = App.sess w
    /\ App.database w' = App.database w
    /\ App.stripe_requests w'
       = App.stripe_requests w ++ [checkout_params (App.sess w) items].
Proof.
  intros Hu Hne H. unfold App.checkout, App.login_required in H.
  rewrite Hu in H.
  destruct (session_get_cart (App.sess w)) as [|i c] eqn:Ec; [congruence|].
  bind_inv H. rename a into items. bind_inv H. rename a into cs.
  injection H as <- <-. exists items, cs.
  unfold checkout_params. rewrite Hu. simpl.
  split; [now apply for_list_session_item_ok|]. repeat split. exact Ha0.
Qed.

Lemma checkout_answer_means_one_request_witness :
  exists items cs,
    Forall2 line_of [widget 2; gadget 1] items
    /\ provider (checkout_params (logged_in (Some [widget 2; gadget 1])) items)
       = Ok cs
    /\ redirect (url "https://pay.example/cs_test_1") 303
       = redirect (url (App.cs_url cs)) 303
    /\ logged_in (Some [widget 2; gadget 1])
       = logged_in (Some [widget 2; gadget 1])
    /\ shop = shop
    /\ [checkout_params (logged_in (Some [widget 2; gadget 1]))
          [{| App.li_price_data :=
                {| App.currency := "usd";
                   App.pd_product_data := {| App.pd_name := "Widget" |};
                   App.unit_amount := 1000 |};
              App.li_quantity := 2 |};
           {| App.li_price_data :=
                {| App.currency := "usd";
                   App.pd_product_data := {| App.pd_name := "Gadget" |};
                   App.unit_amount := 500 |};
              App.li_quantity := 1 |}]]
       = [] ++ [checkout_params (logged_in (Some [widget 2; gadget 1])) items].
Proof.
  refine (checkout_answer_means_one_request
            provider (visit (Some [widget 2; gadget 1])) "ann@shop.com"
            (redirect (url "https://pay.example/cs_test_1") 303)
            {| App.sess := logged_in (Some [widget 2; gadget 1]);
               App.database := shop;
               App.stripe_requests :=
                 [checkout_params (logged_in (Some [widget 2; gadget 1]))
                    [{| App.li_price_data :=
                          {| App.currency := "usd";
                             App.pd_product_data :=
                               {| App.pd_name := "Widget" |};
                             App.unit_amount := 1000 |};
                        App.li_quantity := 2 |};
                     {| App.li_price_data :=
                          {| App.currency := "usd";
                             App.pd_product_data :=
                               {| App.pd_name := "Gadget" |};
                             App.unit_amount := 500 |};
                        App.li_quantity := 1 |}]] |} _ _ _).
  - reflexivity.
  - discriminate.
  - vm_compute. reflexivity.
Defined.

(** ** Checkout confirmation in general *)

Lemma sum_nonempty_float (c : list item) (total : Py.number) :
  c <> [] -> Py.sum App.line_total c = Ok total ->
  exists f, total = Py.Float f.
Proof.
  unfold Py.sum. intros Hne H.
  destruct (sum_from_cases c (Py.Int 0)) as [[_ E] | [E | [_ HE]]];
    [left; reflexivity | | | ]; try (rewrite E in H; discriminate H).
  destruct HE as [[Hc _] | [_ [f E]]]; [contradiction|].
  rewrite E in H. injection H as <-. eauto.
Qed.

Lemma fold_max_ge (l : list Z) (x : Z) : In x l -> x <= fold_right Z.max 0 l.
Proof.
  induction l as [|y l IH]; simpl; [intros []|]. intros [-> | H]; [lia|].
  specialize (IH H). lia.
Qed.

(** The rowid of the next insertion is above every rowid of the table. *)
Lemma next_rowid_fresh {R : Type} (rowid : R -> Z) (t : table R) :
  Forall (fun r => rowid r < next_rowid rowid t) (rows t).
Proof.
  apply Forall_forall. intros r Hr. unfold next_rowid.
  pose proof (fold_max_ge (map rowid (rows t)) (rowid r) (in_map _ _ _ Hr)).
  lia.
Qed.

Lemma snapshot_select (d d1 : App.db) (oid : Z) (i : item)
      (r : App.order_item_row) :
  (forall n, option_map App.p_id (App.select_product n d1)
             = option_map App.p_id (App.select_product n d)) ->
  snapshot d1 oid i r -> snapshot d oid i r.
Proof.
  intros E (H1 & H2 & H3). unfold snapshot. rewrite <- E. auto.
Qed.

Lemma for_each_order_line_snapshot (oid : Z) (c : list item) : forall d d',
  for_each (App.order_line oid) c d = Ok d' ->
  exists new,
    rows (App.order_items d') = rows (App.order_items d) ++ new
    /\ Forall2 (snapshot d oid) c new.
Proof.
  induction c as [|i c IH]; simpl; intros d d' H.
  - injection H as <-. exists []. rewrite app_nil_r. split; constructor.
  - bind_inv H. rename a into d1.
    destruct (order_line_ok _ _ _ _ Ha) as (q & Hq & _ & _ & Hi & _).
    destruct (IH _ _ H) as (new & Hn & Hf). rewrite Hi in Hn. simpl in Hn.
    eexists (_ :: new). split.
    + rewrite Hn, <- app_assoc. reflexivity.
    + constructor.
      * unfold snapshot. simpl. rewrite Hq. repeat split.
      * eapply Forall2_impl; [|exact Hf]. intros j r.
        apply snapshot_select. intros n.
        exact (order_line_select oid i d d1 n Ha).
Qed.

(** X8: A confirmation of a non-empty cart completes exactly when the total of
    the cart is a float other than NaN and every quantity is present and
    fits a 64-bit integer: neither the stock nor the catalogue matters. *)
Theorem success_completes_iff (utcnow : string) (w : App.world) (u : string) :
  s_user (App.sess w) = Some u ->
  session_get_cart (App.sess w) <> [] ->
  (exists w',
      App.success utcnow w = Ok (render_template "success.html" [], w'))
  <-> (exists f,
          Py.sum App.line_total (session_get_cart (App.sess w))
          = Ok (Py.Float f)
          /\ is_nan f = false
          /\ Forall fits (session_get_cart (App.sess w))).
Proof.
  intros Hu Hne. split.
  - intros [w' H].
    destruct (success_ok utcnow w u _ w' Hu H)
      as (_ & _ & _ & [[Hc _] | (total & t & d1 & _ & Hs & Hb & _ & Hf)]);
      [contradiction|].
    destruct (sum_nonempty_float _ total Hne Hs) as [f ->].
    exists f. split; [exact Hs|]. split.
    + simpl in Hb. unfold bind_float in Hb.
      destruct (is_nan f); [discriminate Hb | reflexivity].
    + exact (for_each_order_line_fits _ _ _ _ Hf).
  - intros (f & Hs & Hn & Hf).
    apply (success_total utcnow w u (Py.Float f) f Hu Hs); [|exact Hf].
    simpl. unfold bind_float. now rewrite Hn.
Qed.

Lemma success_completes_iff_witness :
  (exists w',
      App.success "2026-11-04T10:00:00" (visit (Some [widget 2; gadget 1]))
      = Ok (render_template "success.html" [], w'))
  <-> (exists f,
          Py.sum App.line_total [widget 2; gadget 1] = Ok (Py.Float f)
          /\ is_nan f = false
          /\ Forall fits [widget 2; gadget 1]).
Proof.
  apply (success_completes_iff "2026-11-04T10:00:00"
                               (visit (Some [widget 2; gadget 1]))
                               "ann@shop.com").
  - reflexivity.
  - discriminate.
Defined.

(** X9: A confirmation of a non-empty cart appends exactly one order: its id is
    above every order id of the table, it carries the session user, the
    clock reading and the float total of the cart; the users table is not
    touched. *)
Theorem success_writes_one_order
        (utcnow : string) (w : App.world) (u : string) (r : response)
        (w' : App.world) :
  s_user (App.sess w) = Some u ->
  session_get_cart (App.sess w) <> [] ->
  App.success utcnow w = Ok (r, w') ->
  exists f,
    Py.sum App.line_total (session_get_cart (App.sess w)) = Ok (Py.Float f)
    /\ rows (App.orders (App.database w'))
       = rows (App.orders (App.database w))
         ++ [{| App.o_id := next_rowid App.o_id (App.orders (App.database w));
                App.o_user_email := u; App.o_total := f;
                App.o_created_at := utcnow |}]
    /\ Forall (fun o => App.o_id o
                        < next_rowid App.o_id (App.orders (App.database w)))
              (rows (App.orders (App.database w)))
    /\ App.users (App.database w') = App.users (App.database w).
Proof.
  intros Hu Hne H.
  destruct (success_ok utcnow w u r w' Hu H)
    as (_ & _ & _ & [[Hc _] | (total & t & d1 & _ & Hs & Hb & Hi & Hf)]);
    [contradiction|].
  destruct (sum_nonempty_float _ total Hne Hs) as [f ->].
  exists f. split; [exact Hs|].
  assert (t = f) as ->.
  { simpl in Hb. unfold bind_float in Hb.
    destruct (is_nan f); [discriminate Hb | now injection Hb]. }
  destruct (for_each_order_line_frame _ _ _ _ Hf) as [Hus Hor].
  unfold App.insert_order in Hi. simpl in Hi. injection Hi as <-.
  split; [now rewrite Hor|]. split; [apply next_rowid_fresh|].
  now rewrite Hus.
Qed.

Lemma success_writes_one_order_witness :
  exists f,
    Py.sum App.line_total [widget 2; gadget 1] = Ok (Py.Float f)
    /\ rows (App.orders (App.database confirmed))
       = rows (App.orders shop)
         ++ [{| App.o_id := next_rowid App.o_id (App.orders shop);
                App.o_user_email := "ann@shop.com"; App.o_total := f;
                App.o_created_at := "2026-11-04T10:00:00" |}]
    /\ Forall (fun o => App.o_id o < next_rowid App.o_id (App.orders shop))
              (rows (App.orders shop))
    /\ App.users (App.database confirmed) = App.users shop.
Proof.
  refine (success_writes_one_order
            "2026-11-04T10:00:00" (visit (Some [widget 2; gadget 1]))
            "ann@shop.com" (render_template "success.html" []) confirmed
            _ _ _).
  - reflexivity.
  - discriminate.
  - vm_compute. reflexivity.
Defined.

(** X10: A confirmation appends one order item per cart entry, in cart order,
    each with the id of the new order, the name, price (NULL for a NaN) and
    quantity of its entry, and the id of the first product of that name as
    the catalogue stood before the confirmation, or NULL when there is
    none. *)
Theorem success_snapshots_cart
        (utcnow : string) (w : App.world) (u : string) (r : response)
        (w' : App.world) :
  s_user (App.sess w) = Some u ->
  App.success utcnow w = Ok (r, w') ->
  exists new,
    rows (App.order_items (App.database w'))
    = rows (App.order_items (App.database w)) ++ new
    /\ Forall2 (snapshot (App.database w)
                         (next_rowid App.o_id (App.orders (App.database w))))
               (session_get_cart (App.sess w)) new.
Proof.
  intros Hu H.
  destruct (success_ok utcnow w u r w' Hu H)
    as (_ & _ & _ & [[Hc Hd] | (total & t & d1 & _ & _ & _ & Hi & Hf)]).
  - exists []. rewrite Hd, Hc, app_nil_r. split; constructor.
  - destruct (for_each_order_line_snapshot _ _ _ _ Hf) as (new & Hn & Hs).
    unfold App.insert_order in Hi. simpl in Hi. injection Hi as <-.
    exists new. split; [exact Hn|].
    eapply Forall2_impl; [|exact Hs]. intros j x.
    apply snapshot_select. reflexivity.
Qed.

Lemma success_snapshots_cart_witness :
  exists new,
    rows (App.order_items (App.database confirmed))
    = rows (App.order_items shop) ++ new
    /\ Forall2 (snapshot shop (next_rowid App.o_id (App.orders shop)))
               [widget 2; gadget 1] new.
Proof.
  refine (success_snapshots_cart
            "2026-11-04T10:00:00" (visit (Some [widget 2; gadget 1]))
            "ann@shop.com" (render_template "success.html" []) confirmed
            _ _).
  - reflexivity.
  - vm_compute. reflexivity.
Defined.

(** ** Stock over several confirmations *)

(** X11: Two confirmations in a row leave the stocks as one confirmation of
    the two carts put together would: the same updates run in the same
    order, and the second confirmation resolves names against the same
    products, whatever the first one did to their stock. *)
Theorem success_twice_stock
        (t1 t2 : string) (w w1 w2 w3 : App.world) (u u2 : string)
        (r1 r2 : response) :
  s_user (App.sess w) = Some u ->
  App.success t1 w = Ok (r1, w1) ->
  s_user (App.sess w2) = Some u2 ->
  App.database w2 = App.database w1 ->
  App.success t2 w2 = Ok (r2, w3) ->
  rows (App.products (App.database w3))
  = map (sold (App.database w)
              (session_get_cart (App.sess w) ++ session_get_cart (App.sess w2)))
        (rows (App.products (App.database w))).
Proof.
  intros Hu H1 Hu2 Hd H2.
  pose proof (success_products t1 w u r1 w1 Hu H1) as E1.
  pose proof (success_products t2 w2 u2 r2 w3 Hu2 H2) as E2.
  rewrite Hd in E2. rewrite E2, E1, map_map. apply map_ext. intros p.
  unfold sold. cbn [App.p_id App.p_stock]. f_equal.
  rewrite stock_after_app. apply stock_after_ext. intros j. unfold resolves.
  pose proof (select_product_map
                (sold (App.database w) (session_get_cart (App.sess w)))
                (name j) (App.database w) (App.database w1)
                (fun _ => eq_refl) (fun _ => eq_refl) E1) as Es.
  destruct (App.select_product (name j) (App.database w1)),
    (App.select_product (name j) (App.database w));
    simpl in Es; try discriminate Es; [|reflexivity].
  injection Es as ->. reflexivity.
Qed.

Lemma success_twice_stock_witness :
  rows (App.products
          (App.database
             (match App.success
                      "2026-11-04T10:05:00"
                      {| App.sess := logged_in (Some [widget 3]);
                         App.database := App.database confirmed;
                         App.stripe_requests := [] |} with
              | Ok (_, w3) => w3
              | Raise _ => visit None
              end)))
  = map (sold shop ([widget 2; gadget 1] ++ [widget 3]))
        (rows (App.products shop)).
Proof.
  refine (success_twice_stock
            "2026-11-04T10:00:00" "2026-11-04T10:05:00"
            (visit (Some [widget 2; gadget 1])) confirmed
            {| App.sess := logged_in (Some [widget 3]);
               App.database := App.database confirmed;
               App.stripe_requests := [] |}
            _ "ann@shop.com" "ann@shop.com"
            (render_template "success.html" [])
            (render_template "success.html" []) _ _ _ _ _).
  - reflexivity.
  - vm_compute. reflexivity.
  - reflexivity.
  - reflexivity.
  - vm_compute. reflexivity.
Defined.

(** ** Registration on app.py *)

Lemma app_register_twice_witness :
  App.register digest (post "Bob@Shop.com" "Passw0rd!")
               (match App.register digest (post "bob@shop.com" "Passw0rd!")
                                   (visit None) with
                | Ok (_, w1) => w1
                | Raise _ => visit None
                end)
  = Ok (redirect (url_for "register") 302,
        App.with_session
          (flash "Email already registered!" "danger"
                 (App.sess
                    (match App.register digest
                                        (post "bob@shop.com" "Passw0rd!")
                                        (visit None) with
                     | Ok (_, w1) => w1
                     | Raise _ => visit None
                     end)))
          (match App.register digest (post "bob@shop.com" "Passw0rd!")
                              (visit None) with
           | Ok (_, w1) => w1
           | Raise _ => visit None
           end)).
Proof.
  refine (app_register_twice
            digest (post "bob@shop.com" "Passw0rd!")
            (post "Bob@Shop.com" "Passw0rd!") (visit None)
            (redirect (url_for "login") 302) _ _ _ _ _ _ _);
    vm_compute; reflexivity.
Defined.

Lemma find_app_none {A : Type} (f : A -> bool) (l1 l2 : list A) :
  find f l1 = None -> find f (l1 ++ l2) = find f l2.
Proof.
  induction l1 as [|x l1 IH]; simpl; [reflexivity|].
  destruct (f x); [discriminate | exact IH].
Qed.

Lemma find_existsb_false {A : Type} (f : A -> bool) (l : list A) :
  existsb f l = false -> find f l = None.
Proof.
  induction l as [|x l IH]; simpl; [reflexivity|].
  destruct (f x); [discriminate | exact IH].
Qed.

(** X13: [register] of app.py writes to the users table only: it keeps the
    stored emails pairwise distinct and never removes one, it leaves the
    table alone when the password is weak, and it never logs anyone in. *)
Theorem app_register_keeps_emails_distinct
        (hash : string -> string) (req : request) (w : App.world) :
  NoDup (emails (App.database w)) ->
  exists r w',
    App.register hash req w = Ok (r, w')
    /\ NoDup (emails (App.database w'))
    /\ incl (emails (App.database w)) (emails (App.database w'))
    /\ (App.password_is_strong (form_password req) = false ->
        App.database w' = App.database w)
    /\ s_user (App.sess w') = s_user (App.sess w)
    /\ App.products (App.database w') = App.products (App.database w)
    /\ App.orders (App.database w') = App.orders (App.database w).
Proof.
  intros Hnd. unfold App.register.
  destruct (method req).
  { do 2 eexists. split; [reflexivity|]. repeat split; auto using incl_refl. }
  destruct (App.password_is_strong (form_password req)) eqn:Hp; simpl.
  2:{ do 2 eexists. split; [reflexivity|].
      repeat split; auto using incl_refl. }
  unfold App.insert_user.
  destruct (existsb _ _) eqn:Hex.
  { do 2 eexists. split; [reflexivity|]. repeat split; auto using incl_refl. }
  do 2 eexists. split; [reflexivity|]. unfold emails. simpl.
  rewrite map_app. simpl. repeat split; try discriminate.
  - apply NoDup_app; [exact Hnd | repeat constructor; intros [] |].
    intros x Hx [<-|[]]. apply in_map_iff in Hx as (row & Hrow & Hin).
    assert (existsb (fun r0 => App.u_email r0
                               =? Py.lower (Py.strip (form_email req)))
                    (rows (App.users (App.database w))) = true).
    { apply existsb_exists. exists row. split; [exact Hin|].
      rewrite Hrow. apply String.eqb_refl. }
    congruence.
  - apply incl_appl, incl_refl.
Qed.

Lemma app_register_keeps_emails_distinct_witness :
  exists r w',
    App.register digest (post " Bob@Shop.com" "Passw0rd!") (visit None)
    = Ok (r, w')
    /\ NoDup (emails (App.database w'))
    /\ incl (emails shop) (emails (App.database w'))
    /\ (App.password_is_strong "Passw0rd!" = false ->
        App.database w' = shop)
    /\ s_user (App.sess w') = Some "ann@shop.com"
    /\ App.products (App.database w') = App.products shop
    /\ App.orders (App.database w') = App.orders shop.
Proof.
  apply (app_register_keeps_emails_distinct
           digest (post " Bob@Shop.com" "Passw0rd!") (visit None)).
  constructor.
Defined.

(** ** Logging in and out on app.py *)

Lemma find_existsb_true {A : Type} (f : A -> bool) (l : list A) (x : A) :
  find f l = Some x -> existsb f l = true.
Proof.
  induction l as [|y l IH]; simpl; [discriminate|].
  destruct (f y); [reflexivity | exact IH].
Qed.

(** X14: A user who has just registered can log in with the same password and
    any spelling of the email that differs by case or by surrounding
    white space only, provided the digest check accepts the digest of the
    password; the session then holds the normalized email. *)
Theorem app_register_then_login
        (hash : string -> string) (check : string -> string -> bool)
        (req : request) (e2 : string) (w : App.world) (r : response)
        (w1 : App.world) :
  (forall p, check (hash p) p = true) ->
  method req = POST ->
  App.password_is_strong (form_password req) = true ->
  registered (normalize (form_email req)) (App.database w) = false ->
  s_user (App.sess w) = None ->
  normalize e2 = normalize (form_email req) ->
  App.register hash req w = Ok (r, w1) ->
  App.login check (post e2 (form_password req)) w1
  = Ok (redirect (url_for "main") 302,
        App.with_session
          (flash "Logged in successfully!" "success"
                 (session_set_user (normalize (form_email req)) (App.sess w1)))
          w1).
Proof.
  intros Hcheck Hm Hp Hreg Hu He H.
  unfold App.register, App.insert_user in H. unfold registered, normalize in Hreg.
  rewrite Hm, Hp, Hreg in H. simpl in H. injection H as _ <-.
  unfold App.login. cbn [App.sess s_user flash]. rewrite Hu.
  cbn [method post form_email form_password].
  fold (normalize e2). rewrite He.
  unfold App.select_password. cbn [App.database App.users rows].
  rewrite find_app_none by (apply find_existsb_false; exact Hreg).
  unfold normalize. cbn [find App.u_email]. rewrite String.eqb_refl.
  cbn [option_map App.u_password]. rewrite Hcheck. reflexivity.
Qed.

Lemma app_register_then_login_witness :
  App.login verify (post "  Bob@Shop.COM " "Passw0rd!")
            {| App.sess := {| s_user := None; s_cart := None;
                              s_flashes := [("success",
                                             "Account created successfully!")] |};
               App.database :=
                 {| App.users :=
                      {| rows := [{| App.u_id := 1;
                                     App.u_email := "bob@shop.com";
                                     App.u_password := digest "Passw0rd!" |}];
                         seq := 1 |};
                    App.products := App.products shop;
                    App.orders := App.orders shop;
                    App.order_items := App.order_items shop |};
               App.stripe_requests := [] |}
  = Ok (redirect (url_for "main") 302,
        App.with_session
          (flash "Logged in successfully!" "success"
                 (session_set_user
                    "bob@shop.com"
                    {| s_user := None; s_cart := None;
                       s_flashes := [("success",
                                      "Account created successfully!")] |}))
          {| App.sess := {| s_user := None; s_cart := None;
                            s_flashes := [("success",
                                           "Account created successfully!")] |};
             App.database :=
               {| App.users :=
                    {| rows := [{| App.u_id := 1;
                                   App.u_email := "bob@shop.com";
                                   App.u_password := digest "Passw0rd!" |}];
                       seq := 1 |};
                  App.products := App.products shop;
                  App.orders := App.orders shop;
                  App.order_items := App.order_items shop |};
             App.stripe_requests := [] |}).
Proof.
  refine (app_register_then_login
            digest verify (post "Bob@shop.com" "Passw0rd!")
            "  Bob@Shop.COM "
            {| App.sess := {| s_user := None; s_cart := None;
                              s_flashes := [] |};
               App.database := shop; App.stripe_requests := [] |}
            (redirect (url_for "login") 302) _ _ _ _ _ _ _ _).
  - intros p. unfold verify. apply String.eqb_refl.
  - reflexivity.
  - vm_compute. reflexivity.
  - vm_compute. reflexivity.
  - reflexivity.
  - vm_compute. reflexivity.
  - vm_compute. reflexivity.
Defined.

(** X15: [login] of app.py puts a user in the session only when the normalized
    email is stored and its digest accepts the password; it does so on a
    POST only and then redirects to the main page. *)
Theorem app_login_sound
        (check : string -> string -> bool) (req : request) (w : App.world)
        (r : response) (w' : App.world) (e : string) :
  s_user (App.sess w) = None ->
  App.login check req w = Ok (r, w') ->
  s_user (App.sess w') = Some e ->
  e = normalize (form_email req)
  /\ registered e (App.database w) = true
  /\ (exists stored,
         App.select_password e (App.database w) = Some stored
         /\ check stored (form_password req) = true)
  /\ method req = POST
  /\ r = redirect (url_for "main") 302.
Proof.
  intros Hu H He. unfold App.login in H. rewrite Hu in H.
  destruct (method req) eqn:Hm.
  { injection H as _ <-. congruence. }
  destruct (App.select_password (normalize (form_email req)) (App.database w))
    as [stored|] eqn:Es; unfold normalize in Es; rewrite Es in H.
  - destruct (check stored (form_password req)) eqn:Hc.
    + injection H as <- <-. simpl in He. injection He as <-.
      split; [reflexivity|]. split.
      * unfold App.select_password in Es. unfold registered.
        destruct (find _ _) as [row|] eqn:Ef; [|discriminate Es].
        exact (find_existsb_true _ _ _ Ef).
      * split; [exists stored; split; [exact Es | exact Hc]|].
        split; reflexivity.
    + injection H as _ <-. simpl in He. congruence.
  - injection H as _ <-. simpl in He. congruence.
Qed.

Lemma app_login_sound_witness :
  "ann@shop.com" = normalize " Ann@Shop.com "
  /\ registered "ann@shop.com"
                {| App.users :=
                     {| rows := [{| App.u_id := 1;
                                    App.u_email := "ann@shop.com";
                                    App.u_password := digest "Passw0rd!" |}];
                        seq := 1 |};
                   App.products := App.products shop;
                   App.orders := App.orders shop;
                   App.order_items := App.order_items shop |} = true
  /\ (exists stored,
         App.select_password
           "ann@shop.com"
           {| App.users :=
                {| rows := [{| App.u_id := 1;
                               App.u_email := "ann@shop.com";
                               App.u_password := digest "Passw0rd!" |}];
                   seq := 1 |};
              App.products := App.products shop;
              App.orders := App.orders shop;
              App.order_items := App.order_items shop |} = Some stored
         /\ verify stored "Passw0rd!" = true)
  /\ POST = POST
  /\ redirect (url_for "main") 302 = redirect (url_for "main") 302.
Proof.
  refine (app_login_sound
            verify (post " Ann@Shop.com " "Passw0rd!")
            {| App.sess := {| s_user := None; s_cart := None;
                              s_flashes := [] |};
               App.database :=
                 {| App.users :=
                      {| rows := [{| App.u_id := 1;
                                     App.u_email := "ann@shop.com";
                                     App.u_password := digest "Passw0rd!" |}];
                         seq := 1 |};
                    App.products := App.products shop;
                    App.orders := App.orders shop;
                    App.order_items := App.order_items shop |};
               App.stripe_requests := [] |}
            (redirect (url_for "main") 302) _ "ann@shop.com" eq_refl _ _).
  - vm_compute. reflexivity.
  - reflexivity.
Defined.

(** X16: Neither [logout] nor [login] touches the cart or the database: after a
    logout the confirmation is refused, and after the next login, of
    whichever user, the session still holds the cart left at the logout. *)
Theorem cart_survives_logout_and_login
        (check : string -> string -> bool) (req : request) (utcnow : string)
        (w : App.world) (r1 : response) (w1 : App.world) (r2 : response)
        (w2 : App.world) :
  App.logout w = Ok (r1, w1) ->
  App.login check req w1 = Ok (r2, w2) ->
  s_user (App.sess w1) = None
  /\ App.success utcnow w1 = to_login w1
  /\ session_get_cart (App.sess w2) = session_get_cart (App.sess w)
  /\ App.database w2 = App.database w.
Proof.
  intros H1 H2. unfold App.logout in H1. injection H1 as _ <-.
  split; [reflexivity|]. split.
  - unfold App.success, App.login_required, to_login. reflexivity.
  - unfold App.login in H2. cbn [App.with_session App.sess s_user flash
                                 session_pop_user] in H2.
    destruct (method req); [injection H2 as _ <-; split; reflexivity|].
    destruct (match App.select_password _ _ with
              | Some _ => _ | None => _ end);
      injection H2 as _ <-; split; reflexivity.
Qed.

Lemma cart_survives_logout_and_login_witness :
  s_user (App.sess (App.with_session
                      (flash "Logged out successfully!" "success"
                             (session_pop_user (logged_in (Some [widget 2]))))
                      (visit (Some [widget 2])))) = None
  /\ App.success "2026-11-04T10:00:00"
                 (App.with_session
                    (flash "Logged out successfully!" "success"
                           (session_pop_user (logged_in (Some [widget 2]))))
                    (visit (Some [widget 2])))
     = to_login (App.with_session
                   (flash "Logged out successfully!" "success"
                          (session_pop_user (logged_in (Some [widget 2]))))
                   (visit (Some [widget 2])))
  /\ session_get_cart
       (App.sess (App.with_session
                    (flash "Invalid email or password!" "danger"
                           (flash "Logged out successfully!" "success"
                                  (session_pop_user
                                     (logged_in (Some [widget 2])))))
                    (visit (Some [widget 2]))))
     = session_get_cart (App.sess (visit (Some [widget 2])))
  /\ App.database (App.with_session
                     (flash "Invalid email or password!" "danger"
                            (flash "Logged out successfully!" "success"
                                   (session_pop_user
                                      (logged_in (Some [widget 2])))))
                     (visit (Some [widget 2])))
     = App.database (visit (Some [widget 2])).
Proof.
  refine (cart_survives_logout_and_login
            verify (post "eve@shop.com" "Passw0rd!") "2026-11-04T10:00:00"
            (visit (Some [widget 2])) (redirect (url_for "main") 302) _
            (redirect (url_for "login") 302) _ _ _).
  - reflexivity.
  - vm_compute. reflexivity.
Defined.

(** ** admin_route.py: registration, seeding and the admin panel *)

(** X17: An account created through [register] of admin_route.py has the role
    "user": whoever is logged in under its email is turned away by the
    admin gate, whatever the handler behind it. *)
Theorem admin_route_register_never_admin
        (hash : string -> string) (req : request) (w w' : AdminRoute.world)
        (f : AdminRoute.handler) (s : session) :
  AdminRoute.register hash req w = Ok (redirect (url_for "login") 302, w') ->
  s_user s = Some (form_email req) ->
  AdminRoute.admin_required
    f {| AdminRoute.sess := s; AdminRoute.users := AdminRoute.users w' |}
  = denied {| AdminRoute.sess := s; AdminRoute.users := AdminRoute.users w' |}.
Proof.
  intros H Hs. unfold AdminRoute.register in H.
  destruct (method req); [discriminate H|].
  destruct (AdminRoute.password_is_strong (form_password req));
    simpl in H; [|discriminate H].
  unfold AdminRoute.insert_user in H.
  destruct (existsb _ _) eqn:Hex; [discriminate H|].
  injection H as <-.
  unfold AdminRoute.admin_required, denied. cbn [AdminRoute.sess]. rewrite Hs.
  unfold AdminRoute.select_role. cbn [AdminRoute.users insert snd rows].
  rewrite find_app_none by (apply find_existsb_false; exact Hex).
  cbn [find AdminRoute.u_email]. rewrite String.eqb_refl. reflexivity.
Qed.

Lemma admin_route_register_never_admin_witness :
  AdminRoute.admin_dashboard
    {| AdminRoute.sess := {| s_user := Some "admin@Shop.com"; s_cart := None;
                             s_flashes := [] |};
       AdminRoute.users :=
         AdminRoute.users
           (match AdminRoute.register
                    digest (post "admin@Shop.com" "Passw0rd!") admin_visit with
            | Ok (_, w') => w'
            | Raise _ => admin_visit
            end) |}
  = denied
      {| AdminRoute.sess := {| s_user := Some "admin@Shop.com";
                               s_cart := None; s_flashes := [] |};
         AdminRoute.users :=
           AdminRoute.users
             (match AdminRoute.register
                      digest (post "admin@Shop.com" "Passw0rd!")
                      admin_visit with
              | Ok (_, w') => w'
              | Raise _ => admin_visit
              end) |}.
Proof.
  refine (admin_route_register_never_admin
            digest (post "admin@Shop.com" "Passw0rd!") admin_visit
            (match AdminRoute.register
                     digest (post "admin@Shop.com" "Passw0rd!")
                     admin_visit with
             | Ok (_, w') => w'
             | Raise _ => admin_visit
             end)
            (fun w => Ok (render_template "admin/admin_dashboard.html" [], w))
            {| s_user := Some "admin@Shop.com"; s_cart := None;
               s_flashes := [] |} _ _).
  - vm_compute. reflexivity.
  - reflexivity.
Defined.

Lemma select_role_none (email : string) (t : table AdminRoute.user_row) :
  AdminRoute.select_role email t = None <->
  find (fun r => AdminRoute.u_email r =? email) (rows t) = None.
Proof.
  unfold AdminRoute.select_role. destruct (find _ _); simpl; split; congruence.
Qed.

(** X18: [init_db] of admin_route.py seeds the administrator once: run again it
    changes nothing; it only appends to the table; afterwards a row for
    admin@shop.com exists, with the role "admin" when the email was not
    taken; and an account already stored under that email is left as it
    is, role included. *)
Theorem init_db_seeds_admin_once
        (hash : string -> string) (t : table AdminRoute.user_row) :
  AdminRoute.init_db hash (AdminRoute.init_db hash t) = AdminRoute.init_db hash t
  /\ (exists new, rows (AdminRoute.init_db hash t) = rows t ++ new)
  /\ AdminRoute.select_role "admin@shop.com" (AdminRoute.init_db hash t)
     <> None
  /\ (AdminRoute.select_role "admin@shop.com" t = None ->
      AdminRoute.select_role "admin@shop.com" (AdminRoute.init_db hash t)
      = Some (Some "admin"))
  /\ (AdminRoute.select_role "admin@shop.com" t <> None ->
      AdminRoute.init_db hash t = t).
Proof.
  assert (Hnew : find (fun r => AdminRoute.u_email r =? "admin@shop.com")
                      (rows t) = None ->
                 AdminRoute.select_role "admin@shop.com"
                                        (AdminRoute.init_db hash t)
                 = Some (Some "admin")).
  { intros Ef. unfold AdminRoute.init_db, AdminRoute.select_role.
    rewrite Ef. cbn [insert snd rows]. rewrite find_app_none by exact Ef.
    reflexivity. }
  destruct (find (fun r => AdminRoute.u_email r =? "admin@shop.com") (rows t))
    as [row|] eqn:Ef.
  - assert (E : AdminRoute.init_db hash t = t)
      by (unfold AdminRoute.init_db; now rewrite Ef).
    rewrite !E. split; [reflexivity|]. split; [exists []; now rewrite app_nil_r|].
    split; [|split].
    + rewrite select_role_none, Ef. discriminate.
    + rewrite select_role_none, Ef. discriminate.
    + reflexivity.
  - specialize (Hnew eq_refl). split; [|split; [|split; [|split]]].
    + unfold AdminRoute.init_db at 1.
      destruct (find _ (rows (AdminRoute.init_db hash t))) eqn:Ef2;
        [reflexivity|].
      apply select_role_none in Ef2. congruence.
    + unfold AdminRoute.init_db. rewrite Ef. cbn [insert snd rows]. eauto.
    + rewrite Hnew. discriminate.
    + intros _. exact Hnew.
    + rewrite select_role_none, Ef. congruence.
Qed.

(** X19: On a table where admin@shop.com is not taken, the seeded administrator
    logs in with the default password and then passes the admin gate,
    provided the digest check accepts the digest of that password. *)
Theorem seeded_admin_reaches_panel
        (hash : string -> string) (check : string -> string -> bool)
        (s : session) (t : table AdminRoute.user_row) :
  check (hash "Admin123!") "Admin123!" = true ->
  s_user s = None ->
  AdminRoute.select_role "admin@shop.com" t = None ->
  exists w1,
    AdminRoute.login check (post "admin@shop.com" "Admin123!")
                     {| AdminRoute.sess := s;
                        AdminRoute.users := AdminRoute.init_db hash t |}
    = Ok (redirect (url_for "main") 302, w1)
    /\ s_user (AdminRoute.sess w1) = Some "admin@shop.com"
    /\ AdminRoute.admin_dashboard w1
       = Ok (render_template "admin/admin_dashboard.html" [], w1).
Proof.
  intros Hc Hs Ht. apply select_role_none in Ht.
  assert (El : AdminRoute.select_login "admin@shop.com"
                                       (AdminRoute.init_db hash t)
               = Some (hash "Admin123!", Some "admin")).
  { unfold AdminRoute.init_db, AdminRoute.select_login. rewrite Ht.
    cbn [insert snd rows]. rewrite find_app_none by exact Ht. reflexivity. }
  assert (Er : AdminRoute.select_role "admin@shop.com"
                                      (AdminRoute.init_db hash t)
               = Some (Some "admin")).
  { unfold AdminRoute.init_db, AdminRoute.select_role. rewrite Ht.
    cbn [insert snd rows]. rewrite find_app_none by exact Ht. reflexivity. }
  eexists. split; [|split].
  - unfold AdminRoute.login. cbn [AdminRoute.sess AdminRoute.users].
    rewrite Hs. cbn [method post form_email form_password].
    rewrite El, Hc. reflexivity.
  - reflexivity.
  - unfold AdminRoute.admin_dashboard, AdminRoute.admin_required.
    cbn [AdminRoute.sess AdminRoute.with_session AdminRoute.users s_user
         flash session_set_user].
    rewrite Er. reflexivity.
Qed.

Lemma seeded_admin_reaches_panel_witness :
  exists w1,
    AdminRoute.login verify (post "admin@shop.com" "Admin123!")
                     {| AdminRoute.sess := AdminRoute.sess nobody;
                        AdminRoute.users := AdminRoute.init_db digest empty_table |}
    = Ok (redirect (url_for "main") 302, w1)
    /\ s_user (AdminRoute.sess w1) = Some "admin@shop.com"
    /\ AdminRoute.admin_dashboard w1
       = Ok (render_template "admin/admin_dashboard.html" [], w1).
Proof.
  apply (seeded_admin_reaches_panel digest verify (AdminRoute.sess nobody)
                                    empty_table).
  - vm_compute. reflexivity.
  - reflexivity.
  - reflexivity.
Defined.
